(** * Nutrition aggregation and metabolic formulas of the nutritional workflow

    The development embeds the food-recognition Code nodes of
    [n8n-nutritional-workflow/api-integration-examples.md] (the Hugging Face
    node, the SageMaker and Google Vision nodes with their
    [getNutritionalData] helpers, and [validateImageData]), the
    authentication routes of [routes/auth.js] and the Mifflin-St Jeor formula
    of the dietary planner.

    Conventions of the embedding.
    - A number that comes in with the input or is written in the source (a
      score, a weight, a figure of the table) is the rational it denotes
      ([Qc]).  A number that a node computes is a [number]: such a rational,
      or NaN.  NaN arises where a product has [undefined] as a factor, and
      every operation hands it on.
    - [foodDatabase] is an object literal, and [foodDatabase[foodName]] reads
      the properties it inherits as well as its own: for the twelve names of
      [Object.prototype] ([constructor], [toString], [__proto__], ...) the
      lookup yields the inherited value, which is truthy, so that [||] does
      not put the default profile in its place, and which has no [calories],
      [protein], [carbs], [fat] or [fiber]: every figure of such an item is
      NaN.  [lookup] is this lookup, over the finite map ([gmap string]) of
      the properties the literal writes.
    - Arithmetic on the rationals is exact, and [Math.round x] is
      [floor (x + 1/2)].  In the Hugging Face node the factor is 1.5, and
      every figure of the table and of the default profile times 15 is a
      whole number ([profile_of_exact_at_150g]): the products handed to
      [Math.round] are whole numbers, or whole numbers of halves for the
      energy, and the binary products of the node are these same numbers.
      The same holds for the table and the six portions (80 g to 250 g) of
      the Google Vision node.  The energy total is a sum of whole numbers;
      a gram total is a sum of numbers with one decimal that the [return]
      rounds to one decimal again, which takes the binary sum back to the
      exact one.  For an arbitrary [portionSize], as the SageMaker endpoint
      may send, a binary product can fall just below a tie that the exact
      product hits (10 x 0.235 x 10); statements about arbitrary portions
      therefore relate one run of the code to another and give no figures.
    - An element of [results] is an object with a string [label] and a
      numeric [score], as the recognition service returns them.
    - The [for ... of] loop is a left fold of its body over [results]; the
      [let] variables of the node are the fields of the loop state.
    - The part of a node that talks to the recognition service (building the
      request, [fetch], the [response.ok] test) comes before the aggregation
      and is not part of [aggregate]: [results] is the decoded response.
      [HuggingFaceNode.run] is the node with that part.
    - A string is a sequence of one-byte characters: [length], [startsWith],
      [includes] and [toLowerCase] are taken on those.
    - A property that may be absent is an [option]; [a || b] takes [b] when
      [a] is absent, zero or the empty string.
    - What lies outside the listings is a variable of a section: the
      recognition service behind [fetch], the Joi schemas, [bcrypt] and
      [jsonwebtoken] of the authentication routes.  The [users] table is the
      list of its rows with the sequence of its ids. *)

From Stdlib Require Import QArith Qcanon Qround Ascii String Lia Lqa.
From stdpp Require Import gmap strings list pretty.

Local Open Scope string_scope.
Local Open Scope Qc_scope.

(** ** Numbers and strings *)

(** A decimal literal of the source, as a rational. *)
Definition num (q : Q) : Qc := Q2Qc q.
Arguments num q%_Q.

(** The nearest integer to a rational, halves going up. *)
Definition round_half_up (x : Qc) : Qc :=
  Q2Qc (inject_Z (Qfloor (x + num 0.5))).

(** A number that a node computes. *)
Inductive number :=
| NaN
| finite (q : Qc).
Coercion finite : Qc >-> number.

Declare Scope number_scope.
Delimit Scope number_scope with number.
Bind Scope number_scope with number.

(** [x + y] *)
Definition number_add (x y : number) : number :=
  match x, y with
  | finite a, finite b => finite (a + b)
  | _, _ => NaN
  end.

(** [x * k], where [k] is finite. *)
Definition number_mul (x : number) (k : Qc) : number :=
  match x with
  | finite a => finite (a * k)
  | NaN => NaN
  end.

(** [x / k], where [k] is a literal other than zero. *)
Definition number_div (x : number) (k : Qc) : number :=
  match x with
  | finite a => finite (a / k)
  | NaN => NaN
  end.

Infix "+" := number_add : number_scope.
Infix "*" := number_mul : number_scope.
Infix "/" := number_div : number_scope.

(** [Math.round] *)
Definition Math_round (x : number) : number :=
  match x with
  | finite a => finite (round_half_up a)
  | NaN => NaN
  end.

(** [s.replace(/_/g, ' ')] *)
Fixpoint replace_underscores (s : string) : string :=
  match s with
  | EmptyString => EmptyString
  | String c rest =>
      String (if Ascii.eqb c "_"%char then " "%char else c)
             (replace_underscores rest)
  end.

(** [haystack.includes(needle)] *)
Definition includes (haystack needle : string) : bool :=
  match String.index 0 needle haystack with
  | Some _ => true
  | None => false
  end.

(** [c] in lower case, for the letters A to Z. *)
Definition lower (c : ascii) : ascii :=
  let n := nat_of_ascii c in
  if (65 <=? n)%nat && (n <=? 90)%nat then ascii_of_nat (n + 32) else c.

(** [s.toLowerCase()] *)
Fixpoint toLowerCase (s : string) : string :=
  match s with
  | EmptyString => EmptyString
  | String c rest => String (lower c) (toLowerCase rest)
  end.

(** Sum of a list of numbers. *)
Definition total (l : list number) : number := foldr number_add (finite 0) l.

(** Sum of a list of rationals. *)
Definition sum (l : list Qc) : Qc := foldr Qcplus 0 l.

(** ** Data *)

(** A nutrition profile per 100 g: a value of [foodDatabase]. *)
Module nutrition.
Record t := mk {
  calories : Qc;
  protein : Qc;
  carbs : Qc;
  fat : Qc;
  fiber : Qc
}.
End nutrition.

Definition food (calories protein carbs fat fiber : Q) : nutrition.t :=
  nutrition.mk (num calories) (num protein) (num carbs) (num fat) (num fiber).
Arguments food (calories protein carbs fat fiber)%_Q.

(** The five figures computed for a portion: what [getNutritionalData]
    returns, and the last five properties of an item. *)
Module nutritionalData.
Record t := mk {
  calories : number;
  protein : number;
  carbs : number;
  fat : number;
  fiber : number
}.
End nutritionalData.

(** One element of [results].  The node reads [label] and [score]; a
    prediction may carry further properties, such as the [portion_size] that
    the SageMaker node reads. *)
Module result.
Record t := mk {
  label : string;
  score : Qc;
  portion_size : option Qc
}.
End result.

(** The object pushed to [identifiedFoods]. *)
Module foodData.
Record t := mk {
  name : string;
  confidence : Qc;
  estimatedWeight : Qc;
  calories : number;
  protein : number;
  carbs : number;
  fat : number;
  fiber : number
}.
End foodData.

(** The [let] variables the loop updates. *)
Module vars.
Record t := mk {
  identifiedFoods : list foodData.t;
  totalCalories : number;
  totalProtein : number;
  totalCarbs : number;
  totalFat : number;
  totalFiber : number
}.
End vars.

(** The [json] object a node returns; [dietaryData] is handed on as it
    came. *)
Module json.
Record t (D : Type) := mk {
  identifiedFoods : list foodData.t;
  totalCalories : number;
  totalProtein : number;
  totalCarbs : number;
  totalFat : number;
  totalFiber : number;
  dietaryData : D;
  imageProcessed : bool
}.
Arguments mk {D}.
Arguments identifiedFoods {D}.
Arguments totalCalories {D}.
Arguments totalProtein {D}.
Arguments totalCarbs {D}.
Arguments totalFat {D}.
Arguments totalFiber {D}.
Arguments dietaryData {D}.
Arguments imageProcessed {D}.
End json.

(** ** The nutrition table *)

(** The properties of the object literal, in the order they are written. *)
Definition foodDatabase_literal : list (string * nutrition.t) := [
  ("apple_pie", food 237 2.4 34 11 1.6);
  ("baby_back_ribs", food 355 32 0 25 0);
  ("baklava", food 334 6 35 20 1.8);
  ("beef_carpaccio", food 250 25 0 17 0);
  ("beef_tartare", food 200 20 2 13 0);
  ("beet_salad", food 43 1.6 10 0.2 2.8);
  ("beignets", food 310 6 35 17 1.2);
  ("bibimbap", food 350 15 45 12 4);
  ("bread_pudding", food 320 8 45 12 2);
  ("breakfast_burrito", food 400 20 35 20 3);
  ("bruschetta", food 180 6 20 8 2);
  ("caesar_salad", food 150 8 8 10 2);
  ("cannoli", food 200 6 25 9 1);
  ("caprese_salad", food 120 8 6 8 1);
  ("carrot_cake", food 350 5 45 17 2);
  ("ceviche", food 150 25 8 3 1);
  ("cheesecake", food 320 6 30 20 1);
  ("cheese_plate", food 250 15 2 20 0);
  ("chicken_curry", food 300 25 15 18 3);
  ("chicken_quesadilla", food 450 25 35 25 2);
  ("chicken_wings", food 320 30 2 22 0);
  ("chocolate_cake", food 400 6 50 20 3);
  ("chocolate_mousse", food 280 6 25 18 2);
  ("churros", food 300 4 35 16 1);
  ("clam_chowder", food 200 15 20 8 2);
  ("club_sandwich", food 500 30 35 25 3);
  ("crab_cakes", food 250 20 8 15 1);
  ("creme_brulee", food 300 6 25 20 0);
  ("croque_madame", food 450 25 20 30 1);
  ("cup_cakes", food 250 3 35 12 1);
  ("deviled_eggs", food 150 12 2 10 0);
  ("donuts", food 300 4 35 16 1);
  ("dumplings", food 200 8 25 8 2);
  ("eggs_benedict", food 400 20 15 30 1);
  ("escargots", food 150 15 5 8 1);
  ("falafel", food 200 8 25 8 4);
  ("filet_mignon", food 300 30 0 20 0);
  ("fish_and_chips", food 600 25 50 35 3);
  ("foie_gras", food 400 8 2 40 0);
  ("french_fries", food 320 4 40 16 3);
  ("french_onion_soup", food 250 12 20 12 2);
  ("french_toast", food 300 12 35 12 2);
  ("fried_calamari", food 250 20 15 12 1);
  ("fried_rice", food 300 10 45 8 2);
  ("frozen_yogurt", food 150 4 25 4 0);
  ("garlic_bread", food 200 6 25 8 1);
  ("gnocchi", food 250 8 45 6 2);
  ("greek_salad", food 180 8 12 12 3);
  ("grilled_cheese_sandwich", food 400 15 30 25 2);
  ("grilled_salmon", food 250 30 0 15 0);
  ("guacamole", food 150 2 8 14 6);
  ("gyro", food 350 20 25 20 2);
  ("hamburger", food 500 25 35 30 2);
  ("hot_and_sour_soup", food 100 8 10 3 1);
  ("hot_dog", food 300 12 20 20 1);
  ("huevos_rancheros", food 400 20 30 25 4);
  ("hummus", food 200 8 20 10 6);
  ("ice_cream", food 200 3 25 10 0);
  ("lasagna", food 400 20 35 20 3);
  ("lobster_bisque", food 300 15 15 20 1);
  ("lobster_roll_sandwich", food 450 25 30 25 2);
  ("macaroni_and_cheese", food 350 15 35 18 2);
  ("macarons", food 150 3 25 5 1);
  ("miso_soup", food 50 3 6 2 1);
  ("mussels", food 150 20 5 6 0);
  ("nachos", food 400 15 35 25 3);
  ("omelette", food 250 18 2 18 0);
  ("onion_rings", food 300 4 35 16 3);
  ("oysters", food 100 12 4 4 0);
  ("pad_thai", food 400 15 50 15 3);
  ("paella", food 350 20 40 12 2);
  ("pancakes", food 300 8 40 12 2);
  ("panna_cotta", food 200 4 20 12 0);
  ("peking_duck", food 400 30 5 30 0);
  ("pho", food 300 20 30 8 2);
  ("pizza", food 400 18 45 18 2);
  ("pork_chop", food 300 30 0 20 0);
  ("poutine", food 500 15 40 30 2);
  ("prime_rib", food 400 35 0 28 0);
  ("pulled_pork_sandwich", food 450 25 35 25 2);
  ("ramen", food 400 20 45 15 3);
  ("ravioli", food 300 15 35 12 2);
  ("red_velvet_cake", food 350 5 45 16 2);
  ("risotto", food 300 10 45 10 2);
  ("samosa", food 200 6 25 8 2);
  ("sashimi", food 150 25 0 5 0);
  ("scallops", food 100 20 2 1 0);
  ("seaweed_salad", food 50 2 8 1 2);
  ("shrimp_and_grits", food 400 25 35 20 2);
  ("spaghetti_bolognese", food 450 20 50 18 3);
  ("spaghetti_carbonara", food 500 20 45 25 2);
  ("spring_rolls", food 150 6 20 5 2);
  ("steak", food 300 30 0 20 0);
  ("strawberry_shortcake", food 300 5 45 12 2);
  ("sushi", food 200 15 25 5 1);
  ("tacos", food 250 15 20 12 3);
  ("takoyaki", food 200 8 25 8 1);
  ("tiramisu", food 300 6 35 15 1);
  ("tuna_tartare", food 200 25 2 10 0);
  ("waffles", food 300 8 40 12 2)
].

Definition foodDatabase : gmap string nutrition.t :=
  list_to_map foodDatabase_literal.

(** ** Reading a property of the table *)

(** The names of the properties that every object inherits from
    [Object.prototype]. *)
Definition Object_prototype : list string := [
  "constructor"; "__defineGetter__"; "__defineSetter__"; "hasOwnProperty";
  "__lookupGetter__"; "__lookupSetter__"; "isPrototypeOf";
  "propertyIsEnumerable"; "toString"; "valueOf"; "__proto__";
  "toLocaleString"
].

(** What [foodDatabase[foodName] || {...}] evaluates to: a profile (an
    entry of the table, or the default written after [||]), or the value
    inherited under a name of [Object.prototype] (the function [Object] for
    [constructor], a method for [toString], ...), which is truthy and has
    none of the five properties. *)
Inductive looked_up :=
| profile (n : nutrition.t)
| inherited.

(** [table[name]] for an object literal with the own properties [table]:
    [None] is [undefined]. *)
Definition lookup (table : gmap string nutrition.t) (name : string)
  : option looked_up :=
  match table !! name with
  | Some n => Some (profile n)
  | None => if bool_decide (name ∈ Object_prototype) then Some inherited else None
  end.

(** [nutrition.calories] and its like as the factor of a product: on the
    inherited value the property is [undefined], which is NaN as a
    number. *)
Definition property (f : nutrition.t → Qc) (nutrition : looked_up) : number :=
  match nutrition with
  | profile n => finite (f n)
  | inherited => NaN
  end.

(** ** The retention test

    The condition of the [if] inside the loop, [result.score > 0.1], kept as
    syntax: the operator and the right operand as they are written. *)

Inductive operator := GreaterThan | GreaterThanOrEqual.

(** The right operand: a number written in place, or the name of a
    constant together with the value it was declared with. *)
Inductive operand :=
| NumericLiteral (value : Q)
| Identifier (const_name : string) (value : Q).

Record test := {
  test_operator : operator;
  test_right : operand
}.

Definition operand_value (o : operand) : Qc :=
  match o with
  | NumericLiteral v => num v
  | Identifier _ v => num v
  end.

(** The test applied to [result.score]. *)
Definition holds (t : test) (score : Qc) : bool :=
  match test_operator t with
  | GreaterThan => bool_decide (operand_value (test_right t) < score)
  | GreaterThanOrEqual => bool_decide (operand_value (test_right t) ≤ score)
  end.

Definition is_named_constant (o : operand) : bool :=
  match o with
  | NumericLiteral _ => false
  | Identifier _ _ => true
  end.

(** ** The Hugging Face node *)

Module HuggingFace.

(** [result.score > 0.1] *)
Definition confidence_test : test :=
  {| test_operator := GreaterThan; test_right := NumericLiteral 0.1 |}.

(** The body of [for (const result of results)]. *)
Definition loop_body (v : vars.t) (r : result.t) : vars.t :=
  if holds confidence_test (result.score r) then
    let foodName := result.label r in
    let confidence := result.score r in
    let nutrition :=
      default (profile (food 200 10 20 8 2)) (lookup foodDatabase foodName) in
    let estimatedWeight := num 150 in
    let scaleFactor := estimatedWeight / num 100 in
    let foodData := {|
      foodData.name := replace_underscores foodName;
      foodData.confidence := confidence;
      foodData.estimatedWeight := estimatedWeight;
      foodData.calories :=
        Math_round (property nutrition.calories nutrition * scaleFactor);
      foodData.protein :=
        Math_round (property nutrition.protein nutrition * scaleFactor * num 10)
        / num 10;
      foodData.carbs :=
        Math_round (property nutrition.carbs nutrition * scaleFactor * num 10)
        / num 10;
      foodData.fat :=
        Math_round (property nutrition.fat nutrition * scaleFactor * num 10)
        / num 10;
      foodData.fiber :=
        Math_round (property nutrition.fiber nutrition * scaleFactor * num 10)
        / num 10
    |} in
    {| vars.identifiedFoods := vars.identifiedFoods v ++ [foodData];
       vars.totalCalories := vars.totalCalories v + foodData.calories foodData;
       vars.totalProtein := vars.totalProtein v + foodData.protein foodData;
       vars.totalCarbs := vars.totalCarbs v + foodData.carbs foodData;
       vars.totalFat := vars.totalFat v + foodData.fat foodData;
       vars.totalFiber := vars.totalFiber v + foodData.fiber foodData |}
  else v.

(** The variables as declared before the loop. *)
Definition initial : vars.t :=
  {| vars.identifiedFoods := [];
     vars.totalCalories := 0;
     vars.totalProtein := 0;
     vars.totalCarbs := 0;
     vars.totalFat := 0;
     vars.totalFiber := 0 |}.

(** From [// Process results] to the [return]. *)
Definition aggregate {D : Type} (results : list result.t) (dietaryData : D)
  : json.t D :=
  let v := fold_left loop_body results initial in
  {| json.identifiedFoods := vars.identifiedFoods v;
     json.totalCalories := vars.totalCalories v;
     json.totalProtein := Math_round (vars.totalProtein v * num 10) / num 10;
     json.totalCarbs := Math_round (vars.totalCarbs v * num 10) / num 10;
     json.totalFat := Math_round (vars.totalFat v * num 10) / num 10;
     json.totalFiber := Math_round (vars.totalFiber v * num 10) / num 10;
     json.dietaryData := dietaryData;
     json.imageProcessed := true |}.

End HuggingFace.

(** ** The [getNutritionalData] helpers

    Both helpers open with [const foodDatabase = { /* ... same as above ... */ }]:
    the table is elided in the listing, so it is a variable of the section.
    The lookup is that of a plain object, inherited properties included.
    The products are the exact ones: they are the binary products of the
    code for the portions 80, 100, 120, 150, 200 and 250 g and the figures
    of the table; for any other [portionSize] the helpers stand in
    equations between one call and another only. *)

Module SageMaker.
Section Helper.
Variable foodDatabase : gmap string nutrition.t.

Definition getNutritionalData (foodName : string) (portionSize : Qc)
    : nutritionalData.t :=
    let nutrition :=
      default (profile (food 200 10 20 8 2)) (lookup foodDatabase foodName) in
    let scaleFactor := portionSize / num 100 in
    {| nutritionalData.calories :=
         Math_round (property nutrition.calories nutrition * scaleFactor);
       nutritionalData.protein :=
         Math_round (property nutrition.protein nutrition * scaleFactor * num 10)
         / num 10;
       nutritionalData.carbs :=
         Math_round (property nutrition.carbs nutrition * scaleFactor * num 10)
         / num 10;
       nutritionalData.fat :=
         Math_round (property nutrition.fat nutrition * scaleFactor * num 10)
         / num 10;
       nutritionalData.fiber :=
         Math_round (property nutrition.fiber nutrition * scaleFactor * num 10)
         / num 10 |}.
End Helper.
End SageMaker.

Module GoogleVision.
Section Helper.
Variable foodDatabase : gmap string nutrition.t.

Definition getNutritionalData (foodName : string) (portionSize : Qc)
    : nutritionalData.t :=
    let nutrition :=
      default (profile (food 200 10 20 8 2)) (lookup foodDatabase foodName) in
    let scaleFactor := portionSize / num 100 in
    {| nutritionalData.calories :=
         Math_round (property nutrition.calories nutrition * scaleFactor);
       nutritionalData.protein :=
         Math_round (property nutrition.protein nutrition * scaleFactor * num 10)
         / num 10;
       nutritionalData.carbs :=
         Math_round (property nutrition.carbs nutrition * scaleFactor * num 10)
         / num 10;
       nutritionalData.fat :=
         Math_round (property nutrition.fat nutrition * scaleFactor * num 10)
         / num 10;
       nutritionalData.fiber :=
         Math_round (property nutrition.fiber nutrition * scaleFactor * num 10)
         / num 10 |}.
End Helper.
End GoogleVision.

(** ** The dietary planner *)

Module DietaryPlanner.

Inductive sex := male | female.

(** Modelled from the spec: [calculate_bmr] of
    [python-services/dietary_planner.py].  The repository shows its
    signature and docstring ([CONTRIBUTING.md]) and the two printed formulas
    (For Men, For Women), which are followed here:
    [(10 x weight) + (6.25 x height) - (5 x age) + 5] and
    [(10 x weight) + (6.25 x height) - (5 x age) - 161]. *)
Definition calculate_bmr (weight height : Qc) (age : Z) (gender : sex) : Qc :=
  match gender with
  | male =>
      (num 10 * weight) + (num 6.25 * height) - (num 5 * Qc_of_Z age) + num 5
  | female =>
      (num 10 * weight) + (num 6.25 * height) - (num 5 * Qc_of_Z age) - num 161
  end.

End DietaryPlanner.

(** ** Derived views used in the statements *)

(** The results the loop keeps, in order. *)
Definition retained (results : list result.t) : list result.t :=
  List.filter (λ r, holds HuggingFace.confidence_test (result.score r)) results.

(** The profile each variant writes after [||], used when the lookup reads
    [undefined]. *)
Definition default_nutrition : nutrition.t := food 200 10 20 8 2.

(** What the Hugging Face node binds [nutrition] to for a label. *)
Definition nutrition_of (foodName : string) : looked_up :=
  default (profile default_nutrition) (lookup foodDatabase foodName).

(** The profile of a label that is no name of [Object.prototype]: its entry
    in the table, or the default. *)
Definition profile_of (foodName : string) : nutrition.t :=
  default default_nutrition (foodDatabase !! foodName).

(** The [foodData] object the loop body builds for a kept result. *)
Definition foodData_of (r : result.t) : foodData.t :=
  let n := nutrition_of (result.label r) in
  let scaleFactor := num 150 / num 100 in
  {| foodData.name := replace_underscores (result.label r);
     foodData.confidence := result.score r;
     foodData.estimatedWeight := num 150;
     foodData.calories := Math_round (property nutrition.calories n * scaleFactor);
     foodData.protein :=
       Math_round (property nutrition.protein n * scaleFactor * num 10) / num 10;
     foodData.carbs :=
       Math_round (property nutrition.carbs n * scaleFactor * num 10) / num 10;
     foodData.fat :=
       Math_round (property nutrition.fat n * scaleFactor * num 10) / num 10;
     foodData.fiber :=
       Math_round (property nutrition.fiber n * scaleFactor * num 10) / num 10 |}.

(** Pushing one item and adding its figures to the running totals. *)
Definition push (v : vars.t) (d : foodData.t) : vars.t :=
  {| vars.identifiedFoods := vars.identifiedFoods v ++ [d];
     vars.totalCalories := vars.totalCalories v + foodData.calories d;
     vars.totalProtein := vars.totalProtein v + foodData.protein d;
     vars.totalCarbs := vars.totalCarbs v + foodData.carbs d;
     vars.totalFat := vars.totalFat v + foodData.fat d;
     vars.totalFiber := vars.totalFiber v + foodData.fiber d |}.

(** The five figures of an item. *)
Definition figures (d : foodData.t) : nutritionalData.t :=
  {| nutritionalData.calories := foodData.calories d;
     nutritionalData.protein := foodData.protein d;
     nutritionalData.carbs := foodData.carbs d;
     nutritionalData.fat := foodData.fat d;
     nutritionalData.fiber := foodData.fiber d |}.

(** A per-100 g profile scaled to a portion in grams: whole kcal, grams to
    one decimal. *)
Definition scaled (n : nutrition.t) (portionSize : Qc) : nutritionalData.t :=
  let scaleFactor := portionSize / num 100 in
  {| nutritionalData.calories := Math_round (nutrition.calories n * scaleFactor);
     nutritionalData.protein :=
       Math_round (nutrition.protein n * scaleFactor * num 10) / num 10;
     nutritionalData.carbs :=
       Math_round (nutrition.carbs n * scaleFactor * num 10) / num 10;
     nutritionalData.fat :=
       Math_round (nutrition.fat n * scaleFactor * num 10) / num 10;
     nutritionalData.fiber :=
       Math_round (nutrition.fiber n * scaleFactor * num 10) / num 10 |}.

(** Five figures that are all NaN. *)
Definition all_NaN : nutritionalData.t :=
  {| nutritionalData.calories := NaN;
     nutritionalData.protein := NaN;
     nutritionalData.carbs := NaN;
     nutritionalData.fat := NaN;
     nutritionalData.fiber := NaN |}.

(** A profile whose figures for 150 g need no binary rounding: the grams
    times ten are whole numbers before [Math.round], and the energy is a
    whole number of halves. *)
Definition exact_at_150g (n : nutrition.t) : Prop :=
  let scaleFactor := num 150 / num 100 in
  round_half_up (nutrition.calories n * scaleFactor * num 2)
  = nutrition.calories n * scaleFactor * num 2
  ∧ round_half_up (nutrition.protein n * scaleFactor * num 10)
    = nutrition.protein n * scaleFactor * num 10
  ∧ round_half_up (nutrition.carbs n * scaleFactor * num 10)
    = nutrition.carbs n * scaleFactor * num 10
  ∧ round_half_up (nutrition.fat n * scaleFactor * num 10)
    = nutrition.fat n * scaleFactor * num 10
  ∧ round_half_up (nutrition.fiber n * scaleFactor * num 10)
    = nutrition.fiber n * scaleFactor * num 10.

(** Every string of the returned object: the names of the items, and the
    strings of the forwarded [dietaryData]. *)
Definition json_strings {D : Type} (strings_of : D → list string)
    (out : json.t D) : list string :=
  map foodData.name (json.identifiedFoods out) ++ strings_of (json.dietaryData out).

(** The value of a property of the returned object; the only arrays the
    node builds are arrays of items. *)
Inductive json_value (D : Type) :=
| array_of_items (items : list foodData.t)
| numeric (x : number)
| boolean (b : bool)
| forwarded (d : D).
Arguments array_of_items {D}.
Arguments numeric {D}.
Arguments boolean {D}.
Arguments forwarded {D}.

(** The returned object property by property, under the names the [return]
    statement writes. *)
Definition json_properties {D : Type} (out : json.t D)
  : list (string * json_value D) := [
  ("identifiedFoods", array_of_items (json.identifiedFoods out));
  ("totalCalories", numeric (json.totalCalories out));
  ("totalProtein", numeric (json.totalProtein out));
  ("totalCarbs", numeric (json.totalCarbs out));
  ("totalFat", numeric (json.totalFat out));
  ("totalFiber", numeric (json.totalFiber out));
  ("dietaryData", forwarded (json.dietaryData out));
  ("imageProcessed", boolean (json.imageProcessed out))
].

(** ** Readings of the specification that the statements compare with *)

(** The energy total when nothing is rounded before the sum and the sum is
    rounded once on return. *)
Definition energy_rounded_at_boundary (results : list result.t) : number :=
  Math_round
    (total (map (λ r, property nutrition.calories (nutrition_of (result.label r))
                      * (num 150 / num 100))%number
                (retained results))).

(** Additivity together with rounding at the boundary only. *)
Definition additive_with_boundary_rounding {D : Type}
    (results : list result.t) (dietaryData : D) : Prop :=
  let out := HuggingFace.aggregate results dietaryData in
  json.totalCalories out = total (map foodData.calories (json.identifiedFoods out))
  ∧ json.totalCalories out = energy_rounded_at_boundary results.

(** Scaling by the mass of the detection: the energy of the item of every
    kept detection that carries a mass estimate is its per-100 g energy
    times that mass over 100. *)
Definition scaled_by_estimated_mass {D : Type}
    (results : list result.t) (dietaryData : D) : Prop :=
  Forall2
    (λ r item,
       ∀ estimated_mass_g,
         result.portion_size r = Some estimated_mass_g →
         foodData.calories item
         = Math_round (property nutrition.calories (nutrition_of (result.label r))
                       * (estimated_mass_g / num 100)))
    (retained results)
    (json.identifiedFoods (HuggingFace.aggregate results dietaryData)).

(** The allergen check of the specification: every kept detection with a
    tag among the allergens of interest has a string in the output that
    names the food and the allergen. *)
Definition warns_every_conflict {D : Type}
    (allergen_tags : string → list string)
    (allergens_of_interest : list string)
    (strings_of : D → list string)
    (results : list result.t) (dietaryData : D) : Prop :=
  ∀ r a,
    r ∈ retained results →
    a ∈ allergen_tags (result.label r) →
    a ∈ allergens_of_interest →
    ∃ w, w ∈ json_strings strings_of (HuggingFace.aggregate results dietaryData)
         ∧ (includes w (result.label r) = true
            ∨ includes w (replace_underscores (result.label r)) = true)
         ∧ includes w a = true.

(** The threshold of the retention test is a constant referred to by name. *)
Definition threshold_is_named_constant : Prop :=
  is_named_constant (test_right HuggingFace.confidence_test) = true.

(** Discarding below the threshold, with the threshold a named constant. *)
Definition discards_below_named_threshold : Prop :=
  (∀ (pre post : list result.t) (r : result.t),
      result.score r < num 0.1 →
      HuggingFace.aggregate (pre ++ r :: post) tt
      = HuggingFace.aggregate (pre ++ post) tt)
  ∧ threshold_is_named_constant.


(** The empty-input boundary of the specification: every total is zero,
    and the returned object has a list of warnings, which is empty. *)
Definition zero_totals_and_empty_warnings {D : Type} (out : json.t D) : Prop :=
  (json.totalCalories out = 0
   ∧ json.totalProtein out = 0
   ∧ json.totalCarbs out = 0
   ∧ json.totalFat out = 0
   ∧ json.totalFiber out = 0)
  ∧ ∃ key,
      (key, array_of_items []) ∈ json_properties out
      ∧ includes (toLowerCase key) "warning" = true.

(** ** Sample inputs *)

(** Two dishes whose energy for 150 g ends in one half. *)
Definition pie_and_ribs : list result.t :=
  [ result.mk "apple_pie" (num 0.9) None;
    result.mk "baby_back_ribs" (num 0.5) None ].

(** A dish that carries an allergen, and the tags that say so. *)
Definition dairy_tags (foodName : string) : list string :=
  if String.eqb foodName "cheese_plate" then ["dairy"] else [].

Definition cheese_plate : list result.t :=
  [ result.mk "cheese_plate" (num 0.9) None ].

(** Detections around the threshold. *)
Definition sushi : result.t := result.mk "sushi" (num 0.8) None.
Definition ramen : result.t := result.mk "ramen" (num 0.3) None.
Definition faint_pizza : result.t := result.mk "pizza" (num 0.05) (Some (num 200)).
Definition borderline_pizza : result.t := result.mk "pizza" (num 0.1) None.


(** A label that is no key of the table and names an inherited property. *)
Definition constructor_label : result.t := result.mk "constructor" (num 0.9) None.

(** The same detection without and with a mass estimate. *)
Definition pizza_no_mass : result.t := result.mk "pizza" (num 0.7) None.
Definition pizza_400g : result.t := result.mk "pizza" (num 0.7) (Some (num 400)).

(** ** More of JavaScript: absent properties, [||], strings, exceptions *)

(** [a || b] on a property that is a string or absent: the empty string and
    [undefined] are falsy. *)
Definition or_string (a b : option string) : option string :=
  match a with
  | Some s => if String.eqb s "" then b else a
  | None => b
  end.

(** [a || b] on a property that is a number or absent: zero and
    [undefined] are falsy. *)
Definition or_number (a b : option Qc) : option Qc :=
  match a with
  | Some q => if bool_decide (q = 0) then b else a
  | None => b
  end.

(** The key that [object[name]] reads: [undefined] reads the key
    ["undefined"]. *)
Definition property_key (name : option string) : string :=
  default "undefined" name.

(** What a node or a function ends with: a returned value or a thrown
    error. *)
Inductive error :=
| Error (message : string)
| TypeError.

Inductive outcome (A : Type) :=
| Return (value : A)
| Throw (e : error).
Arguments Return {A}.
Arguments Throw {A}.

(** ** The whole Hugging Face node *)

(** The reply of [fetch]; [json] is what [await response.json()] gives,
    an array of results or an exception. *)
Module response.
Record t := mk {
  ok : bool;
  status : nat;
  json : outcome (list result.t)
}.
End response.

Module HuggingFaceNode.
Section Node.
(** The recognition service, from the string sent as [inputs] to its
    reply, or to the exception of a request that fails. *)
Variable fetch : string → outcome response.t.

(** The node from its first line to the [return]: [imageBase64] is a
    [const], so the assignment under [startsWith('data:image')] throws. *)
Definition run {D : Type} (imageBase64 : string) (dietaryData : D)
  : outcome (json.t D) :=
  if String.prefix "data:image" imageBase64 then Throw TypeError
  else
    match fetch imageBase64 with
    | Throw e => Throw e
    | Return response =>
        if negb (response.ok response) then
          Throw (Error ("Hugging Face API error: "
                        +:+ pretty (response.status response)))
        else
          match response.json response with
          | Throw e => Throw e
          | Return results => Return (HuggingFace.aggregate results dietaryData)
          end
    end.
End Node.
End HuggingFaceNode.

(** ** Input validation *)

Module imageData.
Record t := mk {
  imageBase64 : option string
}.
End imageData.

(** [validateImageData]; [None] is an [imageData] that is [undefined] or
    [null]. *)
Definition validateImageData (imageData : option imageData.t) : outcome unit :=
  match imageData with
  | None => Throw (Error "No image data provided")
  | Some d =>
      match imageData.imageBase64 d with
      | None => Throw (Error "No image data provided")
      | Some s =>
          if String.eqb s "" then Throw (Error "No image data provided")
          else if negb (String.prefix "data:image/" s) then
            Throw (Error "Invalid image format")
          else
            let imageSize := Qc_of_Z (Z.of_nat (String.length s)) * num 3 / num 4 in
            if bool_decide (num 10 * num 1024 * num 1024 < imageSize) then
              Throw (Error "Image too large")
            else Return tt
      end
  end.

(** ** The SageMaker node *)

(** One element of [results.predictions]: every property may be absent. *)
Module prediction.
Record t := mk {
  food_name : option string;
  label : option string;
  confidence : option Qc;
  score : option Qc;
  portion_size : option Qc
}.
End prediction.

Module SageMakerNode.

(** The object pushed to [identifiedFoods]; [name] is [undefined] when the
    prediction carries neither [food_name] nor [label]. *)
Module foodData.
Record t := mk {
  name : option string;
  confidence : Qc;
  estimatedWeight : Qc;
  calories : number;
  protein : number;
  carbs : number;
  fat : number;
  fiber : number
}.
End foodData.

Module vars.
Record t := mk {
  identifiedFoods : list foodData.t;
  totalCalories : number;
  totalProtein : number;
  totalCarbs : number;
  totalFat : number;
  totalFiber : number
}.
End vars.

Module json.
Record t (D : Type) := mk {
  identifiedFoods : list foodData.t;
  totalCalories : number;
  totalProtein : number;
  totalCarbs : number;
  totalFat : number;
  totalFiber : number;
  dietaryData : D;
  imageProcessed : bool
}.
Arguments mk {D}.
Arguments identifiedFoods {D}.
Arguments totalCalories {D}.
Arguments totalProtein {D}.
Arguments totalCarbs {D}.
Arguments totalFat {D}.
Arguments totalFiber {D}.
Arguments dietaryData {D}.
Arguments imageProcessed {D}.
End json.

Section Node.
Variable foodDatabase : gmap string nutrition.t.

(** The body of [for (const prediction of results.predictions)]. *)
Definition loop_body (v : vars.t) (p : prediction.t) : vars.t :=
  let foodName := or_string (prediction.food_name p) (prediction.label p) in
  let confidence := or_number (prediction.confidence p) (prediction.score p) in
  let portionSize :=
    default (num 150) (or_number (prediction.portion_size p) (Some (num 150))) in
  match confidence with
  | Some confidence =>
      if bool_decide (num 0.1 < confidence) then
        let nutrition :=
          SageMaker.getNutritionalData foodDatabase (property_key foodName)
            portionSize in
        let foodData := {|
          foodData.name := foodName;
          foodData.confidence := confidence;
          foodData.estimatedWeight := portionSize;
          foodData.calories := nutritionalData.calories nutrition;
          foodData.protein := nutritionalData.protein nutrition;
          foodData.carbs := nutritionalData.carbs nutrition;
          foodData.fat := nutritionalData.fat nutrition;
          foodData.fiber := nutritionalData.fiber nutrition
        |} in
        {| vars.identifiedFoods := vars.identifiedFoods v ++ [foodData];
           vars.totalCalories := vars.totalCalories v + foodData.calories foodData;
           vars.totalProtein := vars.totalProtein v + foodData.protein foodData;
           vars.totalCarbs := vars.totalCarbs v + foodData.carbs foodData;
           vars.totalFat := vars.totalFat v + foodData.fat foodData;
           vars.totalFiber := vars.totalFiber v + foodData.fiber foodData |}
      else v
  | None => v
  end.

Definition initial : vars.t :=
  {| vars.identifiedFoods := [];
     vars.totalCalories := 0;
     vars.totalProtein := 0;
     vars.totalCarbs := 0;
     vars.totalFat := 0;
     vars.totalFiber := 0 |}.

(** From [// Process SageMaker results] to the [return]; [predictions] is
    [None] when [results.predictions] is absent or not an array. *)
Definition aggregate {D : Type} (predictions : option (list prediction.t))
    (dietaryData : D) : json.t D :=
  let v :=
    match predictions with
    | Some predictions => fold_left loop_body predictions initial
    | None => initial
    end in
  {| json.identifiedFoods := vars.identifiedFoods v;
     json.totalCalories := vars.totalCalories v;
     json.totalProtein := Math_round (vars.totalProtein v * num 10) / num 10;
     json.totalCarbs := Math_round (vars.totalCarbs v * num 10) / num 10;
     json.totalFat := Math_round (vars.totalFat v * num 10) / num 10;
     json.totalFiber := Math_round (vars.totalFiber v * num 10) / num 10;
     json.dietaryData := dietaryData;
     json.imageProcessed := true |}.
End Node.
End SageMakerNode.

(** ** The Google Vision node *)

(** One element of [result.labelAnnotations]. *)
Module annotation.
Record t := mk {
  description : string;
  score : Qc
}.
End annotation.

Module GoogleVisionNode.

Definition foodKeywords : list string := [
  "food"; "meal"; "dish"; "cuisine"; "ingredient"; "vegetable";
  "fruit"; "meat"; "chicken"; "beef"; "fish"; "pasta"; "rice";
  "bread"; "salad"; "soup"; "pizza"; "burger"; "sandwich";
  "dessert"; "cake"; "pie"; "cookie"; "candy"; "chocolate"
].

Definition isFoodRelated (description : string) : bool :=
  existsb (λ keyword, includes (toLowerCase description) keyword) foodKeywords.

(** The properties of [portionSizes], in the order [Object.entries] lists
    them. *)
Definition portionSizes : list (string * Qc) := [
  ("pizza", num 200);
  ("burger", num 150);
  ("salad", num 100);
  ("soup", num 250);
  ("pasta", num 150);
  ("rice", num 100);
  ("chicken", num 150);
  ("fish", num 120);
  ("vegetables", num 80);
  ("fruit", num 100)
].

Definition estimatePortionSize (foodName : string) : Qc :=
  match List.find (λ entry, includes (toLowerCase foodName) entry.1) portionSizes with
  | Some entry => entry.2
  | None => num 100
  end.

Section Node.
Variable foodDatabase : gmap string nutrition.t.

(** The body of [for (const label of foodLabels)]. *)
Definition loop_body (v : vars.t) (label : annotation.t) : vars.t :=
  let foodName := annotation.description label in
  let confidence := annotation.score label in
  let portionSize := estimatePortionSize foodName in
  let nutrition := GoogleVision.getNutritionalData foodDatabase foodName portionSize in
  let foodData := {|
    foodData.name := foodName;
    foodData.confidence := confidence;
    foodData.estimatedWeight := portionSize;
    foodData.calories := nutritionalData.calories nutrition;
    foodData.protein := nutritionalData.protein nutrition;
    foodData.carbs := nutritionalData.carbs nutrition;
    foodData.fat := nutritionalData.fat nutrition;
    foodData.fiber := nutritionalData.fiber nutrition
  |} in
  {| vars.identifiedFoods := vars.identifiedFoods v ++ [foodData];
     vars.totalCalories := vars.totalCalories v + foodData.calories foodData;
     vars.totalProtein := vars.totalProtein v + foodData.protein foodData;
     vars.totalCarbs := vars.totalCarbs v + foodData.carbs foodData;
     vars.totalFat := vars.totalFat v + foodData.fat foodData;
     vars.totalFiber := vars.totalFiber v + foodData.fiber foodData |}.

Definition initial : vars.t :=
  {| vars.identifiedFoods := [];
     vars.totalCalories := 0;
     vars.totalProtein := 0;
     vars.totalCarbs := 0;
     vars.totalFat := 0;
     vars.totalFiber := 0 |}.

(** From [const labels = ...] to the [return]; [labelAnnotations] is [None]
    when the reply has none. *)
Definition aggregate {D : Type} (labelAnnotations : option (list annotation.t))
    (dietaryData : D) : json.t D :=
  let labels := default [] labelAnnotations in
  let foodLabels :=
    List.filter
      (λ label, isFoodRelated (annotation.description label)
                && bool_decide (num 0.1 < annotation.score label))
      labels in
  let v := fold_left loop_body foodLabels initial in
  {| json.identifiedFoods := vars.identifiedFoods v;
     json.totalCalories := vars.totalCalories v;
     json.totalProtein := Math_round (vars.totalProtein v * num 10) / num 10;
     json.totalCarbs := Math_round (vars.totalCarbs v * num 10) / num 10;
     json.totalFat := Math_round (vars.totalFat v * num 10) / num 10;
     json.totalFiber := Math_round (vars.totalFiber v * num 10) / num 10;
     json.dietaryData := dietaryData;
     json.imageProcessed := true |}.
End Node.
End GoogleVisionNode.

(** ** The authentication routes

    [routes/auth.js] over the [users] table of the first migration.  The
    libraries it calls are variables of the section: the two Joi schemas
    (from the request body to [{ value, error }]), [bcrypt.hash] (with the
    salt it draws), [bcrypt.compare] and [jwt.sign] (with the time it reads).
    The database answers every query; a handler runs from its first line to
    its response without another request in between. *)

Module auth.

(** A row of [users], with the columns the routes read or write. *)
Record user := mk_user {
  id : nat;
  email : string;
  password_hash : string;
  name : string
}.

(** The table and the sequence behind [t.increments('id')]. *)
Record db := mk_db {
  users : list user;
  users_id_seq : nat
}.

(** [{ value, error }] of [schema.validate]. *)
Inductive validation (A : Type) :=
| Valid (value : A)
| Invalid (message : string).
Arguments Valid {A}.
Arguments Invalid {A}.

Record register_value := {
  register_email : string;
  register_password : string;
  register_name : string
}.

Record login_value := {
  login_email : string;
  login_password : string
}.

(** What [res.status(...).json(...)] sends. *)
Inductive body :=
| error_body (error : string)
| session_body (token : string) (user_id : nat) (user_email user_name : string).

Record response := {
  status : nat;
  json : body
}.

Section Routes.
Variable request_body : Type.
Variable registerSchema_validate : request_body → validation register_value.
Variable loginSchema_validate : request_body → validation login_value.
Variable bcrypt_hash : string → nat → string.
Variable bcrypt_compare : string → string → bool.
Variable jwt_sign : nat → nat → string.

(** [db('users').where({ email }).first()] *)
Definition where_email (d : db) (e : string) : option user :=
  List.find (λ u, String.eqb (email u) e) (users d).

(** [router.post('/register', ...)] *)
Definition register (salt now : nat) (req_body : request_body) (d : db)
  : response * db :=
  match registerSchema_validate req_body with
  | Invalid message => ({| status := 400; json := error_body message |}, d)
  | Valid value =>
      match where_email d (register_email value) with
      | Some existing =>
          ({| status := 409; json := error_body "Email already registered" |}, d)
      | None =>
          let passwordHash := bcrypt_hash (register_password value) salt in
          let user := {| id := S (users_id_seq d);
                         email := register_email value;
                         password_hash := passwordHash;
                         name := register_name value |} in
          let token := jwt_sign (id user) now in
          ({| status := 201;
              json := session_body token (id user) (email user) (name user) |},
           {| users := users d ++ [user]; users_id_seq := S (users_id_seq d) |})
      end
  end.

(** [router.post('/login', ...)] *)
Definition login (now : nat) (req_body : request_body) (d : db)
  : response * db :=
  match loginSchema_validate req_body with
  | Invalid message => ({| status := 400; json := error_body message |}, d)
  | Valid value =>
      match where_email d (login_email value) with
      | None => ({| status := 401; json := error_body "Invalid credentials" |}, d)
      | Some user =>
          if negb (bcrypt_compare (login_password value) (password_hash user)) then
            ({| status := 401; json := error_body "Invalid credentials" |}, d)
          else
            let token := jwt_sign (id user) now in
            ({| status := 200;
                json := session_body token (id user) (email user) (name user) |}, d)
      end
  end.

End Routes.
End auth.
(** ** Further views and sample inputs *)

(** A rational that is whole. *)
Definition whole (x : Qc) : Prop := ∃ z : Z, x = Qc_of_Z z.

(** A number with at most one decimal, or NaN. *)
Definition tenths (x : number) : Prop :=
  match x with
  | NaN => True
  | finite q => whole (q * num 10)
  end.

(** No retained detection has a label that names an inherited property. *)
Definition no_inherited_label (results : list result.t) : Prop :=
  Forall (λ r, result.label r ∉ Object_prototype) (retained results).

(** The exact amount of one nutrient over the kept detections: the
    per-100 g figure times 1.5, not rounded. *)
Definition exact_grams (f : nutrition.t → Qc) (results : list result.t) : Qc :=
  sum (map (λ r, f (profile_of (result.label r)) * (num 150 / num 100))
           (retained results)).

(** The exact energy of the kept detections, not rounded. *)
Definition exact_energy (results : list result.t) : Qc :=
  sum (map (λ r, nutrition.calories (profile_of (result.label r))
                 * (num 150 / num 100))
           (retained results)).

(** A number that is finite and not below zero. *)
Definition not_below_zero (x : number) : Prop := ∃ q : Qc, x = finite q ∧ 0 ≤ q.

(** No figure below zero, and none NaN. *)
Definition nonnegative (n : nutritionalData.t) : Prop :=
  not_below_zero (nutritionalData.calories n)
  ∧ not_below_zero (nutritionalData.protein n)
  ∧ not_below_zero (nutritionalData.carbs n)
  ∧ not_below_zero (nutritionalData.fat n)
  ∧ not_below_zero (nutritionalData.fiber n).

(** No figure of a profile of the table below zero. *)
Definition nonnegative_profile (n : nutrition.t) : Prop :=
  0 ≤ nutrition.calories n ∧ 0 ≤ nutrition.protein n ∧ 0 ≤ nutrition.carbs n
  ∧ 0 ≤ nutrition.fat n ∧ 0 ≤ nutrition.fiber n.

(** An image as a data URL and as bare base64, and a service that answers. *)
Definition png_data_url : string := "data:image/png;base64,iVBORw0KGgo=".

Definition service_up (inputs : string) : outcome response.t :=
  Return (response.mk true 200 (Return [sushi; ramen])).

Definition raw_base64 : string := "iVBORw0KGgo=".

(** The test of the SageMaker loop: [confidence > 0.1], where [confidence]
    is [prediction.confidence || prediction.score]. *)
Definition SageMaker_kept (p : prediction.t) : bool :=
  match or_number (prediction.confidence p) (prediction.score p) with
  | Some confidence => bool_decide (num 0.1 < confidence)
  | None => false
  end.

(** The item the SageMaker loop builds for a prediction, if it keeps it. *)
Definition SageMaker_item (db : gmap string nutrition.t) (p : prediction.t)
  : option SageMakerNode.foodData.t :=
  let foodName := or_string (prediction.food_name p) (prediction.label p) in
  let portionSize :=
    default (num 150) (or_number (prediction.portion_size p) (Some (num 150))) in
  match or_number (prediction.confidence p) (prediction.score p) with
  | Some confidence =>
      if bool_decide (num 0.1 < confidence) then
        let n := SageMaker.getNutritionalData db (property_key foodName)
                   portionSize in
        Some {| SageMakerNode.foodData.name := foodName;
                SageMakerNode.foodData.confidence := confidence;
                SageMakerNode.foodData.estimatedWeight := portionSize;
                SageMakerNode.foodData.calories := nutritionalData.calories n;
                SageMakerNode.foodData.protein := nutritionalData.protein n;
                SageMakerNode.foodData.carbs := nutritionalData.carbs n;
                SageMakerNode.foodData.fat := nutritionalData.fat n;
                SageMakerNode.foodData.fiber := nutritionalData.fiber n |}
      else None
  | None => None
  end.

(** The five figures of an item of the SageMaker node. *)
Definition SageMaker_figures (d : SageMakerNode.foodData.t) : nutritionalData.t :=
  {| nutritionalData.calories := SageMakerNode.foodData.calories d;
     nutritionalData.protein := SageMakerNode.foodData.protein d;
     nutritionalData.carbs := SageMakerNode.foodData.carbs d;
     nutritionalData.fat := SageMakerNode.foodData.fat d;
     nutritionalData.fiber := SageMakerNode.foodData.fiber d |}.

(** Pushing one item in the SageMaker node. *)
Definition SageMaker_push (v : SageMakerNode.vars.t) (d : SageMakerNode.foodData.t)
  : SageMakerNode.vars.t :=
  {| SageMakerNode.vars.identifiedFoods := SageMakerNode.vars.identifiedFoods v ++ [d];
     SageMakerNode.vars.totalCalories :=
       SageMakerNode.vars.totalCalories v + SageMakerNode.foodData.calories d;
     SageMakerNode.vars.totalProtein :=
       SageMakerNode.vars.totalProtein v + SageMakerNode.foodData.protein d;
     SageMakerNode.vars.totalCarbs :=
       SageMakerNode.vars.totalCarbs v + SageMakerNode.foodData.carbs d;
     SageMakerNode.vars.totalFat :=
       SageMakerNode.vars.totalFat v + SageMakerNode.foodData.fat d;
     SageMakerNode.vars.totalFiber :=
       SageMakerNode.vars.totalFiber v + SageMakerNode.foodData.fiber d |}.

(** A result of the Hugging Face service read as a SageMaker prediction. *)
Definition as_prediction (r : result.t) : prediction.t :=
  {| prediction.food_name := None;
     prediction.label := Some (result.label r);
     prediction.confidence := None;
     prediction.score := Some (result.score r);
     prediction.portion_size := None |}.

(** An item of the Hugging Face node as the SageMaker node writes it, under
    the name given. *)
Definition SageMaker_of_HuggingFace (d : foodData.t) (foodName : string)
  : SageMakerNode.foodData.t :=
  {| SageMakerNode.foodData.name := Some foodName;
     SageMakerNode.foodData.confidence := foodData.confidence d;
     SageMakerNode.foodData.estimatedWeight := foodData.estimatedWeight d;
     SageMakerNode.foodData.calories := foodData.calories d;
     SageMakerNode.foodData.protein := foodData.protein d;
     SageMakerNode.foodData.carbs := foodData.carbs d;
     SageMakerNode.foodData.fat := foodData.fat d;
     SageMakerNode.foodData.fiber := foodData.fiber d |}.

(** A prediction with its falsy first operands removed: an empty
    [food_name], a zero [confidence], a zero [portion_size]. *)
Definition without_falsy (p : prediction.t) : prediction.t :=
  {| prediction.food_name := or_string (prediction.food_name p) None;
     prediction.label := prediction.label p;
     prediction.confidence := or_number (prediction.confidence p) None;
     prediction.score := prediction.score p;
     prediction.portion_size := or_number (prediction.portion_size p) None |}.

(** A character of the keys of the table: a to z, or the underscore. *)
Definition is_key_char (c : ascii) : bool :=
  let n := nat_of_ascii c in
  ((97 <=? n)%nat && (n <=? 122)%nat) || (n =? 95)%nat.

(** A string made of such characters only. *)
Fixpoint plain_key (s : string) : bool :=
  match s with
  | EmptyString => true
  | String c rest => is_key_char c && plain_key rest
  end.

(** The test of [labels.filter] in the Google Vision node. *)
Definition GoogleVision_kept (label : annotation.t) : bool :=
  GoogleVisionNode.isFoodRelated (annotation.description label)
  && bool_decide (num 0.1 < annotation.score label).

(** The [foodData] object the Google Vision loop builds for a label. *)
Definition GoogleVision_item (db : gmap string nutrition.t) (label : annotation.t)
  : foodData.t :=
  let portionSize := GoogleVisionNode.estimatePortionSize (annotation.description label) in
  let n := GoogleVision.getNutritionalData db (annotation.description label)
             portionSize in
  {| foodData.name := annotation.description label;
     foodData.confidence := annotation.score label;
     foodData.estimatedWeight := portionSize;
     foodData.calories := nutritionalData.calories n;
     foodData.protein := nutritionalData.protein n;
     foodData.carbs := nutritionalData.carbs n;
     foodData.fat := nutritionalData.fat n;
     foodData.fiber := nutritionalData.fiber n |}.

(** The portions [estimatePortionSize] can return. *)
Definition portions : list Qc :=
  [num 80; num 100; num 120; num 150; num 200; num 250].

(** The table as the unique constraints of the migration keep it: no
    email and no id twice, and no id beyond the sequence. *)
Definition consistent (d : auth.db) : Prop :=
  NoDup (map auth.email (auth.users d))
  ∧ NoDup (map auth.id (auth.users d))
  ∧ Forall (λ u, auth.id u ≤ auth.users_id_seq d)%nat (auth.users d).

(** Libraries and requests to try the routes on. *)
Definition sample_validate_register (b : auth.register_value)
  : auth.validation auth.register_value := auth.Valid b.
Definition sample_validate_login (b : auth.register_value)
  : auth.validation auth.login_value :=
  auth.Valid {| auth.login_email := auth.register_email b;
                auth.login_password := auth.register_password b |}.
Definition sample_hash (password : string) (salt : nat) : string :=
  "$2a$10$" +:+ pretty salt +:+ "$" +:+ password.
Definition sample_compare (password hash : string) : bool :=
  includes hash ("$" +:+ password).
Definition sample_sign (sub now : nat) : string :=
  "jwt." +:+ pretty sub +:+ "." +:+ pretty now.
Definition empty_db : auth.db := {| auth.users := []; auth.users_id_seq := 0 |}.
Definition ada : auth.register_value :=
  {| auth.register_email := "ada@example.org";
     auth.register_password := "correct horse";
     auth.register_name := "Ada" |}.
Definition ada_wrong_password : auth.register_value :=
  {| auth.register_email := "ada@example.org";
     auth.register_password := "battery staple";
     auth.register_name := "Ada" |}.
Definition bob : auth.register_value :=
  {| auth.register_email := "bob@example.org";
     auth.register_password := "battery staple";
     auth.register_name := "Bob" |}.

(** The routes over these libraries. *)
Definition sample_register :=
  auth.register auth.register_value sample_validate_register sample_hash sample_sign.
Definition sample_login :=
  auth.login auth.register_value sample_validate_login sample_compare sample_sign.

(** * Properties *)

(** ** Numbers *)

(* The table is only ever read through [!!]; proofs never unfold it except
   by evaluation. *)
#[global] Opaque foodDatabase.

Ltac qc_compute := apply Qc_is_canon; vm_compute; reflexivity.

(* Two numbers, or two records of numbers, that evaluate to the same
   figures. *)
Ltac figures_eq :=
  lazymatch goal with
  | |- @eq Qc _ _ => apply Qc_is_canon; vm_compute; reflexivity
  | |- _ => first [reflexivity | f_equal; figures_eq]
  end.

Ltac number_compute := vm_compute; figures_eq.

Lemma Qcle_decided (x y : Qc) : bool_decide (x ≤ y) = true → x ≤ y.
Proof. apply bool_decide_eq_true. Qed.

Lemma Qclt_decided (x y : Qc) : bool_decide (x < y) = true → x < y.
Proof. apply bool_decide_eq_true. Qed.

Lemma finite_inj (a b : Qc) : finite a = finite b → a = b.
Proof. by intros [= ->]. Qed.

Lemma number_add_0_l (x : number) : (finite 0 + x)%number = x.
Proof. destruct x as [|q]; [reflexivity|]. cbn. by rewrite Qcplus_0_l. Qed.

Lemma number_add_0_r (x : number) : (x + finite 0)%number = x.
Proof. destruct x as [|q]; [reflexivity|]. cbn. by rewrite Qcplus_0_r. Qed.

Lemma number_add_assoc (x y z : number) : (x + (y + z))%number = (x + y + z)%number.
Proof. destruct x, y, z; cbn; try reflexivity. by rewrite Qcplus_assoc. Qed.

Lemma number_add_NaN_r (x : number) : (x + NaN)%number = NaN.
Proof. by destruct x. Qed.

Lemma total_app (l k : list number) : total (l ++ k) = (total l + total k)%number.
Proof.
  induction l as [|x l IH]; cbn [app total foldr].
  - by rewrite number_add_0_l.
  - fold (total (l ++ k)). fold (total l). by rewrite IH, number_add_assoc.
Qed.

Lemma total_finite (l : list Qc) : total (map finite l) = finite (sum l).
Proof.
  induction l as [|x l IH]; [reflexivity|].
  cbn [map total foldr sum]. fold (total (map finite l)). fold (sum l).
  by rewrite IH.
Qed.

(** One NaN among the summands makes the sum NaN. *)
Lemma total_NaN (l : list number) : NaN ∈ l → total l = NaN.
Proof.
  induction l as [|x l IH]; intros Hin.
  - by apply elem_of_nil in Hin.
  - cbn [total foldr]. fold (total l).
    apply elem_of_cons in Hin as [<- | Hin]; [reflexivity|].
    rewrite (IH Hin). apply number_add_NaN_r.
Qed.

Lemma sum_app (l k : list Qc) : sum (l ++ k) = sum l + sum k.
Proof.
  induction l as [|x l IH]; simpl.
  - by rewrite Qcplus_0_l.
  - by rewrite IH, Qcplus_assoc.
Qed.

Lemma scaleFactor_value : num 150 / num 100 = num 1.5.
Proof. qc_compute. Qed.

Lemma Math_round_zero_tenths : (Math_round (finite 0 * num 10) / num 10)%number = 0.
Proof. number_compute. Qed.

(** ** The retention test *)

Lemma holds_confidence_test (score : Qc) :
  holds HuggingFace.confidence_test score = bool_decide (num 0.1 < score).
Proof. reflexivity. Qed.

Lemma not_held_iff (score : Qc) :
  holds HuggingFace.confidence_test score = false ↔ score ≤ num 0.1.
Proof.
  rewrite holds_confidence_test, bool_decide_eq_false.
  symmetry. apply Qcle_ngt.
Qed.

(** With [>=] in place of [>] a score of exactly 0.1 would pass. *)
Lemma non_strict_test_keeps_threshold :
  holds {| test_operator := GreaterThanOrEqual; test_right := NumericLiteral 0.1 |}
        (num 0.1) = true
  ∧ holds HuggingFace.confidence_test (num 0.1) = false.
Proof. split; vm_compute; reflexivity. Qed.

Lemma held_iff (score : Qc) :
  holds HuggingFace.confidence_test score = true ↔ num 0.1 < score.
Proof. rewrite holds_confidence_test. apply bool_decide_eq_true. Qed.

(** ** The table *)

(** No key is written twice, so the map holds every property of the
    literal. *)
Lemma foodDatabase_keys_distinct : NoDup (foodDatabase_literal.*1).
Proof. apply (bool_decide_unpack _). vm_compute. exact I. Qed.

Lemma foodDatabase_lookup (foodName : string) (n : nutrition.t) :
  foodDatabase !! foodName = Some n ↔ (foodName, n) ∈ foodDatabase_literal.
Proof.
  change foodDatabase
    with (list_to_map foodDatabase_literal : gmap string nutrition.t).
  symmetry. apply elem_of_list_to_map. exact foodDatabase_keys_distinct.
Qed.

Lemma foodDatabase_size : size foodDatabase = 100%nat.
Proof. vm_compute. reflexivity. Qed.

Lemma foodDatabase_exact_at_150g :
  Forall (λ entry, exact_at_150g entry.2) foodDatabase_literal.
Proof. apply (bool_decide_unpack _). vm_compute. exact I. Qed.

Lemma default_nutrition_exact_at_150g : exact_at_150g default_nutrition.
Proof. apply (bool_decide_unpack _). vm_compute. exact I. Qed.

(** Whatever the label, the profile is exact at 150 g: the rational
    figures of the model are the decimal figures the node prints. *)
Lemma profile_of_exact_at_150g (foodName : string) :
  exact_at_150g (profile_of foodName).
Proof.
  unfold profile_of. destruct (foodDatabase !! foodName) as [n|] eqn:Hn.
  - apply foodDatabase_lookup in Hn.
    exact (proj1 (Forall_forall _ _) foodDatabase_exact_at_150g _ Hn).
  - exact default_nutrition_exact_at_150g.
Qed.

(** ** The lookup *)

(** No key of the table is a name of [Object.prototype]. *)
Lemma Object_prototype_no_keys :
  Forall (λ name, name ∉ foodDatabase_literal.*1) Object_prototype.
Proof. apply (bool_decide_unpack _). vm_compute. exact I. Qed.

Lemma inherited_no_entry (foodName : string) :
  foodName ∈ Object_prototype → foodDatabase !! foodName = None.
Proof.
  intros Hin. destruct (foodDatabase !! foodName) as [n|] eqn:Hn; [|reflexivity].
  apply foodDatabase_lookup in Hn.
  destruct (proj1 (Forall_forall _ _) Object_prototype_no_keys _ Hin).
  apply list_elem_of_fmap. by exists (foodName, n).
Qed.


Lemma lookup_undefined (table : gmap string nutrition.t) (name : string) :
  lookup table name = None ↔ table !! name = None ∧ name ∉ Object_prototype.
Proof.
  unfold lookup. destruct (table !! name) as [n|].
  - split; [discriminate | by intros [? _]].
  - case_bool_decide as Hin.
    + split; [discriminate | by intros [_ ?]].
    + by split.
Qed.

Lemma lookup_not_inherited (table : gmap string nutrition.t) (name : string) :
  name ∉ Object_prototype →
  default (profile default_nutrition) (lookup table name)
  = profile (default default_nutrition (table !! name)).
Proof.
  intros Hout. unfold lookup. destruct (table !! name) as [n|]; [reflexivity|].
  by rewrite bool_decide_eq_false_2.
Qed.

Lemma lookup_inherited (table : gmap string nutrition.t) (name : string) :
  table !! name = None → name ∈ Object_prototype →
  default (profile default_nutrition) (lookup table name) = inherited.
Proof.
  intros Hnone Hin. unfold lookup. rewrite Hnone.
  by rewrite bool_decide_eq_true_2.
Qed.

Lemma nutrition_of_profile (foodName : string) :
  foodName ∉ Object_prototype → nutrition_of foodName = profile (profile_of foodName).
Proof. apply lookup_not_inherited. Qed.

Lemma nutrition_of_inherited (foodName : string) :
  foodName ∈ Object_prototype → nutrition_of foodName = inherited.
Proof.
  intros Hin. apply lookup_inherited; [by apply inherited_no_entry | exact Hin].
Qed.


(** ** Rounding to one decimal *)

Lemma num_10_nonzero : num 10 ≠ 0.
Proof. intros H. apply (f_equal this) in H. vm_compute in H. discriminate H. Qed.

Lemma tenths_fixed (x : Qc) :
  round_half_up (x * num 10) = x * num 10 → round_half_up (x * num 10) / num 10 = x.
Proof. intros ->. apply Qcdiv_mult_l, num_10_nonzero. Qed.

(** ** The loop *)

Lemma loop_body_keep (v : vars.t) (r : result.t) :
  holds HuggingFace.confidence_test (result.score r) = true →
  HuggingFace.loop_body v r = push v (foodData_of r).
Proof. intros H. unfold HuggingFace.loop_body. rewrite H. reflexivity. Qed.

Lemma loop_body_drop (v : vars.t) (r : result.t) :
  holds HuggingFace.confidence_test (result.score r) = false →
  HuggingFace.loop_body v r = v.
Proof. intros H. unfold HuggingFace.loop_body. by rewrite H. Qed.

(** The state after the loop, from any starting state: the kept results
    are appended in order and their figures are added to the totals. *)
Lemma fold_loop_body (results : list result.t) (v : vars.t) :
  fold_left HuggingFace.loop_body results v =
  let items := map foodData_of (retained results) in
  {| vars.identifiedFoods := vars.identifiedFoods v ++ items;
     vars.totalCalories := vars.totalCalories v + total (map foodData.calories items);
     vars.totalProtein := vars.totalProtein v + total (map foodData.protein items);
     vars.totalCarbs := vars.totalCarbs v + total (map foodData.carbs items);
     vars.totalFat := vars.totalFat v + total (map foodData.fat items);
     vars.totalFiber := vars.totalFiber v + total (map foodData.fiber items) |}.
Proof.
  revert v. induction results as [|r results IH]; intros v.
  - destruct v. cbv zeta. cbn [fold_left retained List.filter map total foldr
      vars.identifiedFoods vars.totalCalories vars.totalProtein vars.totalCarbs
      vars.totalFat vars.totalFiber].
    rewrite app_nil_r, !number_add_0_r. reflexivity.
  - cbn [fold_left]. rewrite IH. unfold retained. cbn [List.filter].
    destruct (holds HuggingFace.confidence_test (result.score r)) eqn:Hr.
    + rewrite (loop_body_keep _ _ Hr). cbv zeta.
      cbn [push vars.identifiedFoods vars.totalCalories vars.totalProtein
           vars.totalCarbs vars.totalFat vars.totalFiber map total foldr].
      rewrite <- app_assoc, <- !number_add_assoc. reflexivity.
    + rewrite (loop_body_drop _ _ Hr). reflexivity.
Qed.

(** The returned object in closed form. *)
Lemma aggregate_closed_form {D : Type} (results : list result.t) (dd : D) :
  HuggingFace.aggregate results dd =
  let items := map foodData_of (retained results) in
  {| json.identifiedFoods := items;
     json.totalCalories := total (map foodData.calories items);
     json.totalProtein :=
       Math_round (total (map foodData.protein items) * num 10) / num 10;
     json.totalCarbs :=
       Math_round (total (map foodData.carbs items) * num 10) / num 10;
     json.totalFat :=
       Math_round (total (map foodData.fat items) * num 10) / num 10;
     json.totalFiber :=
       Math_round (total (map foodData.fiber items) * num 10) / num 10;
     json.dietaryData := dd;
     json.imageProcessed := true |}.
Proof.
  unfold HuggingFace.aggregate. rewrite fold_loop_body. cbv zeta.
  cbn [HuggingFace.initial vars.identifiedFoods vars.totalCalories
       vars.totalProtein vars.totalCarbs vars.totalFat vars.totalFiber app].
  rewrite !number_add_0_l. reflexivity.
Qed.

Lemma retained_app (l k : list result.t) : retained (l ++ k) = (retained l ++ retained k)%list.
Proof. unfold retained. apply List.filter_app. Qed.

Lemma retained_drop (pre post : list result.t) (r : result.t) :
  holds HuggingFace.confidence_test (result.score r) = false →
  retained (pre ++ r :: post) = retained (pre ++ post).
Proof.
  intros H. rewrite !retained_app. f_equal.
  unfold retained. simpl. by rewrite H.
Qed.

Lemma aggregate_drop {D : Type} (pre post : list result.t) (r : result.t) (dd : D) :
  holds HuggingFace.confidence_test (result.score r) = false →
  HuggingFace.aggregate (pre ++ r :: post) dd = HuggingFace.aggregate (pre ++ post) dd.
Proof.
  intros H. rewrite !aggregate_closed_form. by rewrite (retained_drop _ _ _ H).
Qed.

Lemma elem_of_retained (results : list result.t) (r : result.t) :
  r ∈ retained results ↔
  r ∈ results ∧ holds HuggingFace.confidence_test (result.score r) = true.
Proof.
  unfold retained. rewrite !list_elem_of_In. apply List.filter_In.
Qed.

(** The items of the node, one per kept detection and in order, each as
    the loop body builds it. *)
Lemma items_of_retained {D : Type} (results : list result.t) (dd : D)
    (P : result.t → foodData.t → Prop) :
  (∀ r, P r (foodData_of r)) →
  Forall2 P (retained results) (json.identifiedFoods (HuggingFace.aggregate results dd)).
Proof.
  intros HP. rewrite aggregate_closed_form. cbn [json.identifiedFoods].
  induction (retained results) as [|r l IH]; constructor; [apply HP | exact IH].
Qed.

(** ** The dietary planner: BMR *)

(** C1, as stated, fails in its worked figure: for weight 75 kg, height
    175 cm, age 30, male, the formula gives 750 + 1093.75 - 150 + 5, which is
    not 1738.75. *)
Lemma C1_counterexample :
  DietaryPlanner.calculate_bmr (num 75) (num 175) 30 DietaryPlanner.male
  ≠ num 1738.75.
Proof. intros H. apply (f_equal this) in H. vm_compute in H. discriminate H. Qed.

(** C1, amended. For every profile the planner's BMR is the Mifflin-St Jeor
    value [10*weight + 6.25*height - 5*age], plus 5 for a male and minus 161
    for a female profile; for weight 75 kg, height 175 cm, age 30, male, it
    is 1698.75. *)
Theorem C1_bmr_mifflin_st_jeor :
  (∀ (weight height : Qc) (age : Z) (gender : DietaryPlanner.sex),
      DietaryPlanner.calculate_bmr weight height age gender
      = num 10 * weight + num 6.25 * height - num 5 * Qc_of_Z age
        + match gender with
          | DietaryPlanner.male => num 5
          | DietaryPlanner.female => - num 161
          end)
  ∧ DietaryPlanner.calculate_bmr (num 75) (num 175) 30 DietaryPlanner.male
    = num 1698.75.
Proof.
  split.
  - intros weight height age []; unfold DietaryPlanner.calculate_bmr; ring.
  - qc_compute.
Qed.

(** The unit test printed in [CONTRIBUTING.md], [test_calculate_bmr_male],
    asserts [1690 <= bmr <= 1710] for the same profile, and the sample reply
    of [COMPLETION_REPORT.md] prints a BMR of 1,698 for it: both agree with
    the formula. *)
Lemma test_calculate_bmr_male :
  let bmr := DietaryPlanner.calculate_bmr (num 75) (num 175) 30 DietaryPlanner.male in
  num 1690 ≤ bmr ∧ bmr ≤ num 1710.
Proof.
  split; apply Qcle_decided; vm_compute; reflexivity.
Qed.

(** ** Additivity and rounding *)

Lemma pie_and_ribs_totalCalories :
  json.totalCalories (HuggingFace.aggregate pie_and_ribs tt) = num 889.
Proof. number_compute. Qed.

Lemma pie_and_ribs_boundary : energy_rounded_at_boundary pie_and_ribs = num 888.
Proof. number_compute. Qed.

(** C2, as stated, fails: apple pie (237 kcal per 100 g) and baby back ribs
    (355 kcal per 100 g) are rounded to 356 and 533 before they are added, so
    the node returns 889, while rounding the exact sum 888 once gives 888. *)
Lemma C2_counterexample : ¬ additive_with_boundary_rounding pie_and_ribs tt.
Proof.
  intros [_ H]. rewrite pie_and_ribs_totalCalories, pie_and_ribs_boundary in H.
  apply finite_inj, (f_equal this) in H. vm_compute in H. discriminate H.
Qed.

(** C2, amended. [totalCalories] is exactly the sum of the calories of the
    items of [identifiedFoods]; each item's calories is the per-100 g figure
    that the lookup gives for the label of its detection times the scale
    factor, already rounded to a whole number before it is added, and the
    sum is returned without further rounding. *)
Theorem C2_total_calories_is_sum_of_rounded_items
    {D : Type} (results : list result.t) (dd : D) :
  let out := HuggingFace.aggregate results dd in
  json.totalCalories out = total (map foodData.calories (json.identifiedFoods out))
  ∧ Forall2
      (λ r item,
         foodData.calories item
         = Math_round (property nutrition.calories (nutrition_of (result.label r))
                       * (num 150 / num 100)))
      (retained results) (json.identifiedFoods out).
Proof.
  cbv zeta. split.
  - rewrite aggregate_closed_form. reflexivity.
  - apply items_of_retained. reflexivity.
Qed.

(** ** Scaling by the portion *)

Lemma pizza_400g_calories :
  map foodData.calories (json.identifiedFoods (HuggingFace.aggregate [pizza_400g] tt))
  = [finite (num 600)].
Proof. number_compute. Qed.

(** C3, as stated, fails: a pizza (400 kcal per 100 g) detected with an
    estimated mass of 400 g gets an item of 600 kcal, the energy of 150 g,
    where scaling by its own mass over 100 would give 1600 kcal. *)
Lemma C3_counterexample : ¬ scaled_by_estimated_mass [pizza_400g] tt.
Proof.
  unfold scaled_by_estimated_mass. intros H.
  assert (Hkept : retained [pizza_400g] = [pizza_400g]) by (vm_compute; reflexivity).
  rewrite Hkept in H.
  destruct (json.identifiedFoods (HuggingFace.aggregate [pizza_400g] tt))
    as [|item items] eqn:Hitems; [inversion H|].
  pose proof pizza_400g_calories as Hcal. rewrite Hitems in Hcal.
  injection Hcal as Hcal _.
  apply Forall2_cons_1 in H as [H _].
  specialize (H (num 400) eq_refl). rewrite Hcal in H.
  vm_compute in H. apply finite_inj, (f_equal this) in H.
  vm_compute in H. discriminate H.
Qed.

(** C3, amended. For each kept detection, in order, the node builds an item
    of 150 g whatever mass the detection carries: the item's figures are
    what the lookup gives for the label, per 100 g, times the fixed
    150 / 100 (rounded to whole kcal, or to one decimal for the grams), and
    it is these scaled figures that are summed into the totals. *)
Theorem C3_profile_scaled_by_fixed_weight_over_100
    {D : Type} (results : list result.t) (dd : D) :
  let out := HuggingFace.aggregate results dd in
  let items := json.identifiedFoods out in
  Forall2
    (λ r item,
       let n := nutrition_of (result.label r) in
       let k := num 150 / num 100 in
       foodData.estimatedWeight item = num 150
       ∧ foodData.calories item = Math_round (property nutrition.calories n * k)
       ∧ foodData.protein item
         = (Math_round (property nutrition.protein n * k * num 10) / num 10)%number
       ∧ foodData.carbs item
         = (Math_round (property nutrition.carbs n * k * num 10) / num 10)%number
       ∧ foodData.fat item
         = (Math_round (property nutrition.fat n * k * num 10) / num 10)%number
       ∧ foodData.fiber item
         = (Math_round (property nutrition.fiber n * k * num 10) / num 10)%number)
    (retained results) items
  ∧ json.totalCalories out = total (map foodData.calories items)
  ∧ json.totalProtein out
    = (Math_round (total (map foodData.protein items) * num 10) / num 10)%number
  ∧ json.totalCarbs out
    = (Math_round (total (map foodData.carbs items) * num 10) / num 10)%number
  ∧ json.totalFat out
    = (Math_round (total (map foodData.fat items) * num 10) / num 10)%number
  ∧ json.totalFiber out
    = (Math_round (total (map foodData.fiber items) * num 10) / num 10)%number.
Proof.
  cbv zeta. split.
  - apply items_of_retained. intros r. repeat split.
  - rewrite aggregate_closed_form. repeat split.
Qed.

(** ** Allergens *)

Lemma cheese_plate_strings :
  json_strings (λ allergies : list string, allergies)
               (HuggingFace.aggregate cheese_plate ["dairy"])
  = ["cheese plate"; "dairy"].
Proof. vm_compute. reflexivity. Qed.

(** C4, as stated, fails: a cheese plate is kept (score 0.9) and carries
    the tag dairy, dairy is among the allergens of interest, and the strings
    of the returned object are the item name and the forwarded allergy list:
    none names both the food and the allergen. *)
Lemma C4_counterexample :
  ¬ warns_every_conflict dairy_tags ["dairy"] (λ allergies : list string, allergies)
      cheese_plate ["dairy"].
Proof.
  intros H.
  destruct (H (result.mk "cheese_plate" (num 0.9) None) "dairy")
    as (w & Hw & Hfood & Hallergen).
  - apply elem_of_retained. split; [apply list_elem_of_here|].
    apply held_iff, Qclt_decided. vm_compute. reflexivity.
  - apply list_elem_of_here.
  - apply list_elem_of_here.
  - rewrite cheese_plate_strings in Hw.
    apply list_elem_of_In in Hw. simpl in Hw.
    destruct Hw as [<- | [<- | []]].
    + vm_compute in Hallergen. discriminate Hallergen.
    + destruct Hfood as [Hfood | Hfood]; vm_compute in Hfood; discriminate Hfood.
Qed.

(** C4, amended. The node makes no allergen check and writes no warning:
    the items and the totals do not depend on the forwarded [dietaryData]
    (where the user's allergies travel), which is returned as it came; the
    only strings the node writes are the item names, the labels of the kept
    detections with underscores turned into spaces. *)
Theorem C4_no_allergen_check
    {D D' : Type} (results : list result.t) (dd : D) (dd' : D') :
  let out := HuggingFace.aggregate results dd in
  let out' := HuggingFace.aggregate results dd' in
  json.identifiedFoods out = json.identifiedFoods out'
  ∧ json.totalCalories out = json.totalCalories out'
  ∧ json.totalProtein out = json.totalProtein out'
  ∧ json.totalCarbs out = json.totalCarbs out'
  ∧ json.totalFat out = json.totalFat out'
  ∧ json.totalFiber out = json.totalFiber out'
  ∧ json.dietaryData out = dd
  ∧ map foodData.name (json.identifiedFoods out)
    = map (λ r, replace_underscores (result.label r)) (retained results).
Proof.
  rewrite !aggregate_closed_form.
  cbn [json.identifiedFoods json.totalCalories json.totalProtein json.totalCarbs
       json.totalFat json.totalFiber json.dietaryData].
  repeat split. rewrite map_map. reflexivity.
Qed.

(** ** The confidence threshold *)

(** C5, as stated, fails in its second half: the threshold is written as
    the literal [0.1] inside the condition, not as a named constant. *)
Lemma C5_counterexample : ¬ discards_below_named_threshold.
Proof. intros [_ H]. vm_compute in H. discriminate H. Qed.

(** C5, amended. A detection whose confidence is below 0.1 is discarded:
    the loop leaves the items and the totals as they were, and the returned
    object is the one obtained without that detection; the threshold is the
    numeric literal [0.1] written in the condition of the loop. *)
Theorem C5_below_threshold_discarded
    {D : Type} (pre post : list result.t) (r : result.t) (v : vars.t) (dd : D) :
  result.score r < num 0.1 →
  HuggingFace.loop_body v r = v
  ∧ HuggingFace.aggregate (pre ++ r :: post) dd = HuggingFace.aggregate (pre ++ post) dd
  ∧ test_right HuggingFace.confidence_test = NumericLiteral 0.1.
Proof.
  intros Hlt.
  assert (Hr : holds HuggingFace.confidence_test (result.score r) = false)
    by (apply not_held_iff, Qclt_le_weak, Hlt).
  split; [|split].
  - by apply loop_body_drop.
  - by apply aggregate_drop.
  - reflexivity.
Qed.

Lemma C5_below_threshold_discarded_witness :
  result.score faint_pizza < num 0.1
  ∧ HuggingFace.loop_body HuggingFace.initial faint_pizza = HuggingFace.initial
  ∧ HuggingFace.aggregate ([sushi] ++ faint_pizza :: [ramen]) tt
    = HuggingFace.aggregate ([sushi] ++ [ramen]) tt
  ∧ test_right HuggingFace.confidence_test = NumericLiteral 0.1.
Proof.
  assert (H : result.score faint_pizza < num 0.1)
    by (apply Qclt_decided; vm_compute; reflexivity).
  split; [exact H|].
  exact (C5_below_threshold_discarded [sushi] [ramen] faint_pizza HuggingFace.initial tt H).
Defined.

(** C8. A detection whose confidence is exactly 0.1 is excluded as well:
    the test of the loop is the strict [score > 0.1]. *)
Theorem C8_score_at_threshold_excluded
    {D : Type} (pre post : list result.t) (r : result.t) (v : vars.t) (dd : D) :
  result.score r = num 0.1 →
  HuggingFace.loop_body v r = v
  ∧ HuggingFace.aggregate (pre ++ r :: post) dd = HuggingFace.aggregate (pre ++ post) dd
  ∧ test_operator HuggingFace.confidence_test = GreaterThan.
Proof.
  intros Heq.
  assert (Hr : holds HuggingFace.confidence_test (result.score r) = false)
    by (apply not_held_iff; rewrite Heq; apply Qcle_refl).
  split; [|split].
  - by apply loop_body_drop.
  - by apply aggregate_drop.
  - reflexivity.
Qed.

Lemma C8_score_at_threshold_excluded_witness :
  result.score borderline_pizza = num 0.1
  ∧ HuggingFace.loop_body HuggingFace.initial borderline_pizza = HuggingFace.initial
  ∧ HuggingFace.aggregate ([sushi] ++ borderline_pizza :: [ramen]) tt
    = HuggingFace.aggregate ([sushi] ++ [ramen]) tt
  ∧ test_operator HuggingFace.confidence_test = GreaterThan.
Proof.
  split; [reflexivity|].
  exact (C8_score_at_threshold_excluded [sushi] [ramen] borderline_pizza
           HuggingFace.initial tt eq_refl).
Defined.

(** ** Labels without an entry *)







(** ** No detections *)

(** C7, as stated, fails in its second half: on the empty list the totals
    are zero, but the returned object has no list of warnings, empty or not;
    its only list is [identifiedFoods]. *)
Lemma C7_counterexample :
  ¬ zero_totals_and_empty_warnings (HuggingFace.aggregate [] tt).
Proof.
  intros [_ (key & Hin & Hkey)].
  unfold json_properties in Hin.
  repeat (apply elem_of_cons in Hin as [H|Hin];
          [first [ discriminate H
                 | injection H as ->; vm_compute in Hkey; discriminate Hkey ] |]).
  by apply elem_of_nil in Hin.
Qed.

(** C7, amended. On an empty list of detections the node returns
    normally: no item, every total zero, [dietaryData] forwarded.  The
    returned object has the eight properties of the [return] statement and no
    list of warnings among them, and the node writes no string of its
    own. *)
Theorem C7_empty_detections {D : Type} (dd : D) :
  HuggingFace.aggregate [] dd
  = {| json.identifiedFoods := [];
       json.totalCalories := 0;
       json.totalProtein := 0;
       json.totalCarbs := 0;
       json.totalFat := 0;
       json.totalFiber := 0;
       json.dietaryData := dd;
       json.imageProcessed := true |}
  ∧ (json_properties (HuggingFace.aggregate [] dd)).*1
    = ["identifiedFoods"; "totalCalories"; "totalProtein"; "totalCarbs";
       "totalFat"; "totalFiber"; "dietaryData"; "imageProcessed"]
  ∧ ∀ strings_of : D → list string,
      json_strings strings_of (HuggingFace.aggregate [] dd) = strings_of dd.
Proof.
  split; [|split; reflexivity].
  unfold HuggingFace.aggregate.
  cbn [fold_left HuggingFace.initial vars.identifiedFoods vars.totalCalories
       vars.totalProtein vars.totalCarbs vars.totalFat vars.totalFiber].
  rewrite Math_round_zero_tenths. reflexivity.
Qed.

(** ** The portion of the Hugging Face node *)

Lemma foodData_of_ext (r r' : result.t) :
  result.label r = result.label r' →
  result.score r = result.score r' →
  foodData_of r = foodData_of r'.
Proof. intros Hl Hs. unfold foodData_of. by rewrite Hl, Hs. Qed.

Lemma items_ext (results results' : list result.t) :
  map (λ r, (result.label r, result.score r)) results
  = map (λ r, (result.label r, result.score r)) results' →
  map foodData_of (retained results) = map foodData_of (retained results').
Proof.
  revert results'.
  induction results as [|r results IH]; intros [|r' results'] Heq;
    try discriminate Heq; [reflexivity|].
  injection Heq as Hl Hs Hrest.
  unfold retained in *. cbn [List.filter]. rewrite Hs.
  destruct (holds HuggingFace.confidence_test (result.score r')); cbn [map].
  - rewrite (IH _ Hrest). f_equal. apply foodData_of_ext; [exact Hl | exact Hs].
  - exact (IH _ Hrest).
Qed.

(** C9. In the Hugging Face node every kept detection gets an item with
    the estimated weight 150, that is the scale factor 1.5, and the item's
    figures are what the lookup gives for its label times 1.5, whatever the
    food; and two lists of detections with the same labels and scores,
    whatever mass estimates they carry, give the same returned object. *)
Theorem C9_fixed_portion_150
    {D : Type} (results results' : list result.t) (dd : D) :
  map (λ r, (result.label r, result.score r)) results
  = map (λ r, (result.label r, result.score r)) results' →
  HuggingFace.aggregate results dd = HuggingFace.aggregate results' dd
  ∧ Forall2
      (λ r item,
         let n := nutrition_of (result.label r) in
         foodData.estimatedWeight item = num 150
         ∧ foodData.estimatedWeight item / num 100 = num 1.5
         ∧ foodData.calories item
           = Math_round (property nutrition.calories n * num 1.5)
         ∧ foodData.protein item
           = (Math_round (property nutrition.protein n * num 1.5 * num 10) / num 10)%number
         ∧ foodData.carbs item
           = (Math_round (property nutrition.carbs n * num 1.5 * num 10) / num 10)%number
         ∧ foodData.fat item
           = (Math_round (property nutrition.fat n * num 1.5 * num 10) / num 10)%number
         ∧ foodData.fiber item
           = (Math_round (property nutrition.fiber n * num 1.5 * num 10) / num 10)%number)
      (retained results) (json.identifiedFoods (HuggingFace.aggregate results dd)).
Proof.
  intros Heq. split.
  - rewrite !aggregate_closed_form. cbv zeta. by rewrite (items_ext _ _ Heq).
  - apply items_of_retained. intros r. cbv zeta.
    cbn [foodData_of foodData.estimatedWeight foodData.calories foodData.protein
         foodData.carbs foodData.fat foodData.fiber].
    rewrite scaleFactor_value. repeat split.
Qed.

Lemma C9_fixed_portion_150_witness :
  HuggingFace.aggregate [pizza_no_mass] tt = HuggingFace.aggregate [pizza_400g] tt
  ∧ map foodData.estimatedWeight
        (json.identifiedFoods (HuggingFace.aggregate [pizza_no_mass] tt))
    = [num 150]
  ∧ map foodData.calories
        (json.identifiedFoods (HuggingFace.aggregate [pizza_no_mass] tt))
    = [finite (num 600)].
Proof.
  destruct (C9_fixed_portion_150 [pizza_no_mass] [pizza_400g] tt eq_refl)
    as [Hsame Hitems].
  assert (Hkept : retained [pizza_no_mass] = [pizza_no_mass])
    by (vm_compute; reflexivity).
  rewrite Hkept in Hitems.
  split; [exact Hsame|].
  destruct (json.identifiedFoods (HuggingFace.aggregate [pizza_no_mass] tt))
    as [|item [|second rest]]; [inversion Hitems | |].
  - apply Forall2_cons_1 in Hitems as [(Hweight & _ & Hcalories & _) _].
    cbn [map]. rewrite Hweight, Hcalories. split; [reflexivity|].
    number_compute.
  - apply Forall2_cons_1 in Hitems as [_ Hitems]. inversion Hitems.
Defined.

(** ** The default profile *)





(** * Further properties *)

(** ** Rounding *)

Lemma this_num (q : Q) : (this (num q) == q)%Q.
Proof. apply Qred_correct. Qed.

Lemma this_plus (x y : Qc) : (this (x + y) == this x + this y)%Q.
Proof. apply Qred_correct. Qed.

Lemma this_minus (x y : Qc) : (this (x - y) == this x - this y)%Q.
Proof.
  unfold Qcminus. etransitivity; [apply this_plus|].
  apply Qplus_comp; [reflexivity | apply Qred_correct].
Qed.

Lemma round_this (x : Qc) :
  (this (round_half_up x) == inject_Z (Qfloor (this x + 0.5)))%Q.
Proof.
  unfold round_half_up. etransitivity; [apply Qred_correct|].
  assert (H : (this x + this (num 0.5) == this x + 0.5)%Q)
    by (apply Qplus_comp; [reflexivity | apply this_num]).
  rewrite (Qfloor_comp _ _ H). reflexivity.
Qed.

Lemma round_upper (x : Qc) : round_half_up x ≤ x + num 0.5.
Proof.
  unfold Qcle.
  pose proof (round_this x) as Hr.
  pose proof (this_plus x (num 0.5)) as Hp.
  pose proof (this_num 0.5) as Hn.
  pose proof (Qfloor_le (this x + 0.5)) as Hf.
  lra.
Qed.

Lemma round_lower (x : Qc) : x - num 0.5 < round_half_up x.
Proof.
  unfold Qclt.
  pose proof (round_this x) as Hr.
  pose proof (this_minus x (num 0.5)) as Hp.
  pose proof (this_num 0.5) as Hn.
  pose proof (Qlt_floor (this x + 0.5)) as Hf.
  rewrite inject_Z_plus in Hf. change (inject_Z 1) with 1%Q in Hf.
  lra.
Qed.

Lemma round_Z (z : Z) : round_half_up (Qc_of_Z z) = Qc_of_Z z.
Proof.
  apply Qc_is_canon. etransitivity; [apply round_this|].
  change (this (Qc_of_Z z)) with (inject_Z z).
  unfold Qfloor, inject_Z, Qplus. cbn [Qnum Qden].
  change (Z.pos (1 * 10)) with 10%Z.
  rewrite Z.div_add_l by lia. change (5 * 1 / 10)%Z with 0%Z. by rewrite Z.add_0_r.
Qed.

Lemma round_nonneg (x : Qc) : 0 ≤ x → 0 ≤ round_half_up x.
Proof.
  unfold Qcle. intros Hx.
  pose proof (round_this x) as Hr.
  assert (H : (0 <= Qfloor (this x + 0.5))%Z).
  { change 0%Z with (Qfloor 0). apply Qfloor_resp_le.
    change (this 0) with 0%Q in Hx. lra. }
  change (this 0) with 0%Q.
  rewrite Hr. change 0%Q with (inject_Z 0). rewrite <- Zle_Qle. exact H.
Qed.

Lemma this_mult (x y : Qc) : (this (x * y) == this x * this y)%Q.
Proof. apply Qred_correct. Qed.

Lemma this_of_Z (z : Z) : this (Qc_of_Z z) = inject_Z z.
Proof. reflexivity. Qed.

Ltac qc_to_q :=
  unfold Qcle, Qclt in *;
  repeat match goal with
  | |- context [this (?x + ?y)] => setoid_rewrite (this_plus x y)
  | |- context [this (?x - ?y)] => setoid_rewrite (this_minus x y)
  | |- context [this (?x * ?y)] => setoid_rewrite (this_mult x y)
  | |- context [this (num ?q)] => setoid_rewrite (this_num q)
  | |- context [this (Qc_of_Z ?z)] => rewrite (this_of_Z z)
  | H : context [this (?x + ?y)] |- _ => setoid_rewrite (this_plus x y) in H
  | H : context [this (?x - ?y)] |- _ => setoid_rewrite (this_minus x y) in H
  | H : context [this (?x * ?y)] |- _ => setoid_rewrite (this_mult x y) in H
  | H : context [this (num ?q)] |- _ => setoid_rewrite (this_num q) in H
  | H : context [this (Qc_of_Z ?z)] |- _ => rewrite (this_of_Z z) in H
  end.

Lemma sum_round_bounds (l : list Qc) :
  sum l - num 0.5 * Qc_of_Z (Z.of_nat (length l)) ≤ sum (map round_half_up l)
  ∧ sum (map round_half_up l) ≤ sum l + num 0.5 * Qc_of_Z (Z.of_nat (length l)).
Proof.
  induction l as [|x l [IHl IHu]].
  - split; apply Qcle_decided; vm_compute; reflexivity.
  - cbn [map length sum foldr]. fold (sum l). fold (sum (map round_half_up l)).
    pose proof (round_upper x) as Hu.
    pose proof (Qclt_le_weak _ _ (round_lower x)) as Hl.
    rewrite Nat2Z.inj_succ.
    split; qc_to_q; unfold Z.succ; rewrite inject_Z_plus; change (inject_Z 1) with 1%Q; lra.
Qed.

Lemma whole_iff_round (x : Qc) : whole x ↔ round_half_up x = x.
Proof.
  split.
  - intros [z ->]. apply round_Z.
  - intros H. exists (Qfloor (this x + this (num 0.5))). rewrite <- H at 1.
    apply Qc_is_canon. unfold round_half_up. apply Qred_correct.
Qed.

Lemma whole_plus (x y : Qc) : whole x → whole y → whole (x + y).
Proof.
  intros [a ->] [b ->]. exists (a + b)%Z.
  apply Qc_is_canon. qc_to_q. rewrite inject_Z_plus. reflexivity.
Qed.

Lemma whole_zero : whole 0.
Proof. exists 0%Z. by apply Qc_is_canon. Qed.

Lemma whole_sum (l : list Qc) : Forall whole l → whole (sum l).
Proof.
  induction 1 as [|x l Hx _ IH]; [exact whole_zero|].
  cbn [sum foldr]. by apply whole_plus.
Qed.

Lemma sum_scale (l : list Qc) (k : Qc) : sum l * k = sum (map (λ x, x * k) l).
Proof.
  induction l as [|x l IH]; cbn [sum foldr map].
  - ring.
  - fold (sum l). fold (sum (map (λ x, x * k) l)). rewrite <- IH. ring.
Qed.

(** A sum of numbers with one decimal has one decimal: rounding it to one
    decimal changes nothing. *)
Lemma tenths_sum (l : list Qc) :
  Forall (λ x, whole (x * num 10)) l →
  round_half_up (sum l * num 10) / num 10 = sum l.
Proof.
  intros H. apply tenths_fixed, whole_iff_round.
  rewrite sum_scale. apply whole_sum.
  apply Forall_map. exact H.
Qed.
Lemma this_div2 (x : Qc) (z : Z) :
  x * num 2 = Qc_of_Z z → (this x == inject_Z z / 2)%Q.
Proof.
  intros H. apply (f_equal this) in H. rewrite this_of_Z in H.
  assert (H2 : (this x * 2 == inject_Z z)%Q).
  { rewrite <- H. symmetry. etransitivity; [apply this_mult|].
    apply Qmult_comp; [reflexivity | apply this_num]. }
  rewrite <- H2. field.
Qed.

(** A whole number of halves is never rounded down. *)
Lemma halves_round_up (x : Qc) : whole (x * num 2) → x ≤ round_half_up x.
Proof.
  intros [z Hz]. unfold Qcle.
  pose proof (this_div2 x z Hz) as Hx.
  rewrite round_this.
  assert (Hf : Qfloor (this x + 0.5) = ((z + 1) / 2)%Z).
  { transitivity (Qfloor ((z + 1) # 2)).
    - apply Qfloor_comp. rewrite Hx. unfold Qeq, Qplus, Qdiv, Qmult, Qinv, inject_Z.
      cbn [Qnum Qden]. lia.
    - reflexivity. }
  rewrite Hf, Hx.
  assert (Hz2 : (z <= 2 * ((z + 1) / 2))%Z).
  { pose proof (Z.mul_succ_div_gt (z + 1) 2 ltac:(lia)). lia. }
  rewrite Zle_Qle, inject_Z_mult in Hz2.
  change (inject_Z 2) with 2%Q in Hz2.
  generalize dependent (inject_Z ((z + 1) / 2)). generalize (inject_Z z).
  intros a b Hab. unfold Qdiv. change (/ 2)%Q with (1 # 2)%Q. lra.
Qed.

Lemma sum_le (l k : list Qc) :
  Forall2 Qcle l k → sum l ≤ sum k.
Proof.
  induction 1 as [|x y l k Hxy _ IH]; cbn [sum foldr].
  - apply Qcle_refl.
  - by apply Qcplus_le_compat.
Qed.
(** ** The Hugging Face node: exact figures *)

Lemma tenths_add (x y : number) : tenths x → tenths y → tenths (x + y).
Proof.
  destruct x as [|a], y as [|b]; cbn [tenths number_add]; try done.
  intros Ha Hb. rewrite Qcmult_plus_distr_l. by apply whole_plus.
Qed.

Lemma tenths_total (l : list number) : Forall tenths l → tenths (total l).
Proof.
  induction 1 as [|x l Hx _ IH]; cbn [total foldr].
  - cbn [tenths]. replace (0 * num 10) with 0 by ring. exact whole_zero.
  - by apply tenths_add.
Qed.

(** Rounding such a number to one decimal changes nothing. *)
Lemma tenths_round (x : number) :
  tenths x → (Math_round (x * num 10) / num 10)%number = x.
Proof.
  destruct x as [|q]; [reflexivity|]. cbn [tenths number_mul Math_round number_div].
  intros Hq. f_equal. by apply tenths_fixed, whole_iff_round.
Qed.

(** The figures of the item of a label that is no inherited name: the
    energy is the rounded product, the grams are the products
    themselves. *)
Lemma foodData_of_finite (r : result.t) :
  result.label r ∉ Object_prototype →
  let n := profile_of (result.label r) in
  let k := num 150 / num 100 in
  foodData.calories (foodData_of r) = finite (round_half_up (nutrition.calories n * k))
  ∧ foodData.protein (foodData_of r) = finite (nutrition.protein n * k)
  ∧ foodData.carbs (foodData_of r) = finite (nutrition.carbs n * k)
  ∧ foodData.fat (foodData_of r) = finite (nutrition.fat n * k)
  ∧ foodData.fiber (foodData_of r) = finite (nutrition.fiber n * k).
Proof.
  intros Hout. cbv zeta.
  destruct (profile_of_exact_at_150g (result.label r)) as (_ & Hp & Hc & Hf & Hb).
  cbn [foodData_of foodData.calories foodData.protein foodData.carbs foodData.fat
       foodData.fiber].
  rewrite (nutrition_of_profile _ Hout).
  cbn [property number_mul number_div Math_round].
  split; [reflexivity|].
  repeat split; f_equal; apply tenths_fixed; assumption.
Qed.

(** The figures of the item of a label that names an inherited property. *)
Lemma foodData_of_inherited (r : result.t) :
  result.label r ∈ Object_prototype →
  foodData.calories (foodData_of r) = NaN
  ∧ foodData.protein (foodData_of r) = NaN
  ∧ foodData.carbs (foodData_of r) = NaN
  ∧ foodData.fat (foodData_of r) = NaN
  ∧ foodData.fiber (foodData_of r) = NaN.
Proof.
  intros Hin.
  cbn [foodData_of foodData.calories foodData.protein foodData.carbs foodData.fat
       foodData.fiber].
  rewrite (nutrition_of_inherited _ Hin). by repeat split.
Qed.

Lemma figures_inherited (r : result.t) :
  result.label r ∈ Object_prototype → figures (foodData_of r) = all_NaN.
Proof.
  intros Hin. destruct (foodData_of_inherited r Hin) as (Hc & Hp & Hb & Hf & Hi).
  unfold figures. by rewrite Hc, Hp, Hb, Hf, Hi.
Qed.

Ltac finite_figure r Hout :=
  let H := fresh in
  pose proof (foodData_of_finite r Hout) as H; cbv zeta in H;
  destruct H as (? & ? & ? & ? & ?); assumption.

Lemma foodData_of_tenths (r : result.t) :
  tenths (foodData.protein (foodData_of r))
  ∧ tenths (foodData.carbs (foodData_of r))
  ∧ tenths (foodData.fat (foodData_of r))
  ∧ tenths (foodData.fiber (foodData_of r)).
Proof.
  destruct (decide (result.label r ∈ Object_prototype)) as [Hin|Hout].
  - destruct (foodData_of_inherited r Hin) as (_ & Ep & Eb & Ef & Ei).
    rewrite Ep, Eb, Ef, Ei. by repeat split.
  - pose proof (foodData_of_finite r Hout) as H. cbv zeta in H.
    destruct H as (_ & Ep & Eb & Ef & Ei). rewrite Ep, Eb, Ef, Ei.
    destruct (profile_of_exact_at_150g (result.label r)) as (_ & Hp & Hc & Hf & Hb).
    cbn [tenths]. repeat split; apply whole_iff_round; assumption.
Qed.

(** The gram totals are the sums of the items' grams: the rounding of the
    [return] changes nothing. *)
Lemma aggregate_gram_totals
    {D : Type} (results : list result.t) (dd : D) :
  let out := HuggingFace.aggregate results dd in
  let items := json.identifiedFoods out in
  json.totalProtein out = total (map foodData.protein items)
  ∧ json.totalCarbs out = total (map foodData.carbs items)
  ∧ json.totalFat out = total (map foodData.fat items)
  ∧ json.totalFiber out = total (map foodData.fiber items).
Proof.
  rewrite aggregate_closed_form. cbv zeta.
  cbn [json.identifiedFoods json.totalProtein json.totalCarbs json.totalFat
       json.totalFiber].
  repeat split; apply tenths_round, tenths_total;
    rewrite map_map; apply Forall_map, Forall_forall; intros r _;
    apply (foodData_of_tenths r).
Qed.

Lemma retained_no_inherited (results : list result.t) (r : result.t) :
  no_inherited_label results → r ∈ retained results →
  result.label r ∉ Object_prototype.
Proof. intros Hall Hr. exact (proj1 (Forall_forall _ _) Hall r Hr). Qed.

(** Without inherited names among the kept labels, a column of the items is
    the list of finite numbers given for the kept detections. *)
Lemma items_finite (g : foodData.t → number) (e : result.t → Qc)
    (results : list result.t) :
  no_inherited_label results →
  (∀ r, result.label r ∉ Object_prototype → g (foodData_of r) = finite (e r)) →
  total (map g (map foodData_of (retained results)))
  = finite (sum (map e (retained results))).
Proof.
  intros Hall Hg. rewrite <- total_finite, !map_map. f_equal.
  apply map_ext_in. intros r Hr. apply Hg.
  apply (retained_no_inherited results); [exact Hall | by apply list_elem_of_In].
Qed.

(** X1. When no kept detection is labelled with the name of an inherited
    property, the calorie total of the Hugging Face node is a finite number,
    never below the exact energy of the kept detections (per-100 g energy
    times 1.5, unrounded), and it exceeds it by at most half a kcal per
    item. *)
Theorem HuggingFace_totalCalories_error
    {D : Type} (results : list result.t) (dd : D) :
  no_inherited_label results →
  let out := HuggingFace.aggregate results dd in
  let n := Qc_of_Z (Z.of_nat (length (json.identifiedFoods out))) in
  ∃ kcal : Qc,
    json.totalCalories out = finite kcal
    ∧ exact_energy results ≤ kcal
    ∧ kcal ≤ exact_energy results + num 0.5 * n.
Proof.
  intros Hall. rewrite aggregate_closed_form.
  cbn [json.totalCalories json.identifiedFoods]. cbv zeta.
  set (e := λ r, nutrition.calories (profile_of (result.label r)) * (num 150 / num 100)).
  exists (sum (map round_half_up (map e (retained results)))).
  split; [|split].
  - rewrite (map_map e round_half_up).
    apply (items_finite foodData.calories (λ r, round_half_up (e r))); [exact Hall|].
    intros r Hout. finite_figure r Hout.
  - apply sum_le. apply Forall2_fmap_r, Forall_Forall2_diag, Forall_forall.
    intros x Hx. apply list_elem_of_fmap in Hx as (r & -> & _).
    apply halves_round_up, whole_iff_round.
    apply (profile_of_exact_at_150g (result.label r)).
  - rewrite length_map, <- (length_map e (retained results)).
    apply sum_round_bounds.
Qed.

Lemma pie_and_ribs_no_inherited_label : no_inherited_label pie_and_ribs.
Proof. apply (bool_decide_unpack _). vm_compute. exact I. Qed.

Lemma HuggingFace_totalCalories_error_witness :
  no_inherited_label pie_and_ribs
  ∧ ∃ kcal : Qc,
      json.totalCalories (HuggingFace.aggregate pie_and_ribs tt) = finite kcal
      ∧ exact_energy pie_and_ribs ≤ kcal
      ∧ kcal ≤ exact_energy pie_and_ribs + num 1.
Proof.
  split; [exact pie_and_ribs_no_inherited_label|].
  destruct (HuggingFace_totalCalories_error pie_and_ribs tt
              pie_and_ribs_no_inherited_label) as (kcal & Hkcal & Hlow & Hhigh).
  exists kcal. split; [exact Hkcal|]. split; [exact Hlow|].
  eapply Qcle_trans; [exact Hhigh|].
  apply Qcplus_le_compat; [apply Qcle_refl|].
  apply Qcle_decided. vm_compute. reflexivity.
Defined.

(** X2. When no kept detection is labelled with the name of an inherited
    property, the protein, carbohydrate, fat and fiber totals of the
    Hugging Face node are exact: each is the sum over the kept detections of
    the per-100 g figure times 1.5, the two roundings to one decimal
    changing nothing for the figures of the table. *)
Theorem HuggingFace_gram_totals_exact
    {D : Type} (results : list result.t) (dd : D) :
  no_inherited_label results →
  let out := HuggingFace.aggregate results dd in
  json.totalProtein out = finite (exact_grams nutrition.protein results)
  ∧ json.totalCarbs out = finite (exact_grams nutrition.carbs results)
  ∧ json.totalFat out = finite (exact_grams nutrition.fat results)
  ∧ json.totalFiber out = finite (exact_grams nutrition.fiber results).
Proof.
  intros Hall. cbv zeta.
  destruct (aggregate_gram_totals results dd) as (-> & -> & -> & ->).
  rewrite aggregate_closed_form. cbn [json.identifiedFoods]. unfold exact_grams.
  repeat split; apply items_finite; try exact Hall;
    intros r Hout; finite_figure r Hout.
Qed.

Lemma HuggingFace_gram_totals_exact_witness :
  no_inherited_label pie_and_ribs
  ∧ json.totalProtein (HuggingFace.aggregate pie_and_ribs tt) = finite (num 51.6)
  ∧ json.totalCarbs (HuggingFace.aggregate pie_and_ribs tt) = finite (num 51)
  ∧ json.totalFat (HuggingFace.aggregate pie_and_ribs tt) = finite (num 54)
  ∧ json.totalFiber (HuggingFace.aggregate pie_and_ribs tt) = finite (num 2.4).
Proof.
  split; [exact pie_and_ribs_no_inherited_label|].
  destruct (HuggingFace_gram_totals_exact pie_and_ribs tt
              pie_and_ribs_no_inherited_label) as (-> & -> & -> & ->).
  repeat split; f_equal; qc_compute.
Defined.

Lemma foodDatabase_nonnegative :
  Forall (λ entry, nonnegative_profile entry.2) foodDatabase_literal.
Proof. apply (bool_decide_unpack _). vm_compute. exact I. Qed.

Lemma profile_of_nonnegative (foodName : string) :
  nonnegative_profile (profile_of foodName).
Proof.
  unfold profile_of. destruct (foodDatabase !! foodName) as [n|] eqn:Hn.
  - apply foodDatabase_lookup in Hn.
    exact (proj1 (Forall_forall _ _) foodDatabase_nonnegative _ Hn).
  - apply (bool_decide_unpack _). vm_compute. exact I.
Qed.

Lemma scale_nonneg (x : Qc) : 0 ≤ x → 0 ≤ x * (num 150 / num 100).
Proof.
  intros Hx. rewrite scaleFactor_value. apply Qcmult_nonneg_nonneg; [exact Hx|].
  apply Qcle_decided. vm_compute. reflexivity.
Qed.

Lemma sum_nonneg (l : list Qc) : Forall (Qcle 0) l → 0 ≤ sum l.
Proof.
  induction 1 as [|x l Hx _ IH]; cbn [sum foldr]; [apply Qcle_refl|].
  rewrite <- (Qcplus_0_l 0). by apply Qcplus_le_compat.
Qed.

Lemma foodData_of_nonnegative (r : result.t) :
  result.label r ∉ Object_prototype → nonnegative (figures (foodData_of r)).
Proof.
  intros Hout.
  destruct (profile_of_nonnegative (result.label r)) as (Hc & Hp & Hb & Hf & Hi).
  destruct (foodData_of_finite r Hout) as (Ec & Ep & Eb & Ef & Ei).
  unfold nonnegative, figures.
  cbn [nutritionalData.calories nutritionalData.protein nutritionalData.carbs
       nutritionalData.fat nutritionalData.fiber].
  rewrite Ec, Ep, Eb, Ef, Ei.
  split; [|by repeat split; eexists; (split; [reflexivity | apply scale_nonneg])].
  eexists. split; [reflexivity|].
  apply Qcle_trans with (nutrition.calories (profile_of (result.label r)) * (num 150 / num 100)).
  - by apply scale_nonneg.
  - apply halves_round_up, whole_iff_round, (profile_of_exact_at_150g (result.label r)).
Qed.

Lemma exact_grams_nonneg (f : nutrition.t → Qc) (results : list result.t) :
  (∀ foodName, 0 ≤ f (profile_of foodName)) → 0 ≤ exact_grams f results.
Proof.
  intros Hf. apply sum_nonneg, Forall_map, Forall_forall. intros r _.
  apply scale_nonneg, Hf.
Qed.

Ltac grams_not_below_zero f g results Hall :=
  rewrite (items_finite g (λ r, f (profile_of (result.label r)) * (num 150 / num 100))
             results Hall)
    by (intros r Hout; finite_figure r Hout);
  eexists; split; [reflexivity|];
  apply (exact_grams_nonneg f); intros foodName;
  apply (profile_of_nonnegative foodName).

(** X3. When no kept detection is labelled with the name of an inherited
    property, every figure of the Hugging Face node is a finite number that
    is not negative: the five figures of each item and the five totals. *)
Theorem HuggingFace_never_negative
    {D : Type} (results : list result.t) (dd : D) :
  no_inherited_label results →
  let out := HuggingFace.aggregate results dd in
  Forall (λ item, nonnegative (figures item)) (json.identifiedFoods out)
  ∧ not_below_zero (json.totalCalories out)
  ∧ not_below_zero (json.totalProtein out)
  ∧ not_below_zero (json.totalCarbs out)
  ∧ not_below_zero (json.totalFat out)
  ∧ not_below_zero (json.totalFiber out).
Proof.
  intros Hall. cbv zeta.
  assert (Hitems : Forall (λ item, nonnegative (figures item))
                     (json.identifiedFoods (HuggingFace.aggregate results dd))).
  { rewrite aggregate_closed_form. cbn [json.identifiedFoods].
    apply Forall_map, Forall_forall. intros r Hr.
    apply foodData_of_nonnegative, (retained_no_inherited results); assumption. }
  split; [exact Hitems|].
  split.
  - rewrite aggregate_closed_form. cbn [json.totalCalories].
    rewrite (items_finite foodData.calories
               (λ r, round_half_up (nutrition.calories (profile_of (result.label r))
                                    * (num 150 / num 100))) results Hall)
      by (intros r Hout; finite_figure r Hout).
    eexists. split; [reflexivity|].
    apply sum_nonneg, Forall_map, Forall_forall. intros r _. cbn beta.
    apply round_nonneg, scale_nonneg, (profile_of_nonnegative (result.label r)).
  - destruct (aggregate_gram_totals results dd) as (-> & -> & -> & ->).
    rewrite aggregate_closed_form. cbn [json.identifiedFoods].
    split; [grams_not_below_zero nutrition.protein foodData.protein results Hall|].
    split; [grams_not_below_zero nutrition.carbs foodData.carbs results Hall|].
    split; [grams_not_below_zero nutrition.fat foodData.fat results Hall|].
    grams_not_below_zero nutrition.fiber foodData.fiber results Hall.
Qed.

Lemma HuggingFace_never_negative_witness :
  no_inherited_label pie_and_ribs
  ∧ Forall (λ item, nonnegative (figures item))
           (json.identifiedFoods (HuggingFace.aggregate pie_and_ribs tt))
  ∧ not_below_zero (json.totalCalories (HuggingFace.aggregate pie_and_ribs tt)).
Proof.
  split; [exact pie_and_ribs_no_inherited_label|].
  destruct (HuggingFace_never_negative pie_and_ribs tt pie_and_ribs_no_inherited_label)
    as (Hitems & Hcalories & _).
  split; [exact Hitems | exact Hcalories].
Defined.

(** A kept detection whose label names an inherited property. *)
Lemma inherited_label_NaN_in (g : foodData.t → number) (results : list result.t)
    (r : result.t) :
  r ∈ retained results →
  g (foodData_of r) = NaN →
  total (map g (map foodData_of (retained results))) = NaN.
Proof.
  intros Hr Hg. apply total_NaN. rewrite <- Hg, map_map.
  apply (list_elem_of_fmap_2 (λ r, g (foodData_of r))). exact Hr.
Qed.

(** X20. One kept detection whose label is the name of a property that
    every object inherits ([constructor], [toString], [valueOf], ...) makes
    every figure of its item NaN, and with it all five totals of the
    returned object, whatever else was detected. *)
Theorem inherited_label_makes_totals_NaN
    {D : Type} (results : list result.t) (r : result.t) (dd : D) :
  r ∈ results →
  holds HuggingFace.confidence_test (result.score r) = true →
  result.label r ∈ Object_prototype →
  let out := HuggingFace.aggregate results dd in
  (∃ item, item ∈ json.identifiedFoods out
           ∧ foodData.name item = replace_underscores (result.label r)
           ∧ figures item = all_NaN)
  ∧ json.totalCalories out = NaN
  ∧ json.totalProtein out = NaN
  ∧ json.totalCarbs out = NaN
  ∧ json.totalFat out = NaN
  ∧ json.totalFiber out = NaN.
Proof.
  intros Hin Hkeep Hname. cbv zeta.
  assert (Hr : r ∈ retained results) by (apply elem_of_retained; split; assumption).
  destruct (foodData_of_inherited r Hname) as (Hc & Hp & Hb & Hf & Hi).
  rewrite aggregate_closed_form.
  cbn [json.identifiedFoods json.totalCalories json.totalProtein json.totalCarbs
       json.totalFat json.totalFiber].
  split.
  - exists (foodData_of r). split; [by apply list_elem_of_fmap_2|].
    split; [reflexivity | by apply figures_inherited].
  - rewrite (inherited_label_NaN_in foodData.calories results r Hr Hc),
      (inherited_label_NaN_in foodData.protein results r Hr Hp),
      (inherited_label_NaN_in foodData.carbs results r Hr Hb),
      (inherited_label_NaN_in foodData.fat results r Hr Hf),
      (inherited_label_NaN_in foodData.fiber results r Hr Hi).
    by repeat split.
Qed.

Lemma inherited_label_makes_totals_NaN_witness :
  result.label constructor_label ∈ Object_prototype
  ∧ json.totalCalories (HuggingFace.aggregate [sushi; constructor_label; ramen] tt) = NaN
  ∧ json.totalProtein (HuggingFace.aggregate [sushi; constructor_label; ramen] tt) = NaN.
Proof.
  assert (Hname : result.label constructor_label ∈ Object_prototype)
    by (apply (bool_decide_unpack _); vm_compute; exact I).
  assert (Hin : constructor_label ∈ [sushi; constructor_label; ramen])
    by (apply list_elem_of_further, list_elem_of_here).
  assert (Hkeep : holds HuggingFace.confidence_test (result.score constructor_label) = true)
    by (vm_compute; reflexivity).
  destruct (inherited_label_makes_totals_NaN [sushi; constructor_label; ramen]
              constructor_label tt Hin Hkeep Hname) as (_ & Hcalories & Hprotein & _).
  split; [exact Hname|]. split; [exact Hcalories | exact Hprotein].
Defined.

Section Sums.
Local Open Scope number_scope.

(** X4. Aggregating two lists of detections one after the other: the items
    are the items of the first followed by those of the second, and each of
    the five totals is the sum of the two totals. *)
Theorem HuggingFace_aggregate_app
    {D : Type} (l k : list result.t) (dd : D) :
  let both := HuggingFace.aggregate (l ++ k) dd in
  let first := HuggingFace.aggregate l dd in
  let second := HuggingFace.aggregate k dd in
  json.identifiedFoods both
  = (json.identifiedFoods first ++ json.identifiedFoods second)%list
  ∧ json.totalCalories both = json.totalCalories first + json.totalCalories second
  ∧ json.totalProtein both = json.totalProtein first + json.totalProtein second
  ∧ json.totalCarbs both = json.totalCarbs first + json.totalCarbs second
  ∧ json.totalFat both = json.totalFat first + json.totalFat second
  ∧ json.totalFiber both = json.totalFiber first + json.totalFiber second.
Proof.
  cbv zeta.
  destruct (aggregate_gram_totals (l ++ k) dd) as (-> & -> & -> & ->).
  destruct (aggregate_gram_totals l dd) as (-> & -> & -> & ->).
  destruct (aggregate_gram_totals k dd) as (-> & -> & -> & ->).
  rewrite !aggregate_closed_form.
  cbn [json.identifiedFoods json.totalCalories].
  rewrite retained_app, !map_app, !total_app. repeat split.
Qed.

End Sums.

Lemma replace_underscores_length (s : string) :
  String.length (replace_underscores s) = String.length s.
Proof. induction s as [|c s IH]; cbn [replace_underscores String.length]; congruence. Qed.

Lemma replace_underscores_clean (s : string) :
  includes (replace_underscores s) "_" = false.
Proof.
  unfold includes.
  induction s as [|c s IH]; [reflexivity|].
  cbn [replace_underscores String.index].
  destruct (String.index 0 "_" (replace_underscores s)); [discriminate IH|].
  destruct (Ascii.eqb_spec c "_") as [->|Hc].
  - reflexivity.
  - assert (Hp : String.prefix "_" (String c (replace_underscores s)) = false).
    { cbn [String.prefix]. destruct (ascii_dec "_" c) as [e|]; [|reflexivity].
      by destruct Hc. }
    by rewrite Hp.
Qed.

Lemma replace_underscores_idempotent (s : string) :
  replace_underscores (replace_underscores s) = replace_underscores s.
Proof.
  induction s as [|c s IH]; [reflexivity|].
  cbn [replace_underscores]. rewrite IH. f_equal.
  destruct (Ascii.eqb_spec c "_") as [->|Hc]; [reflexivity|].
  destruct (Ascii.eqb_spec c "_"); [contradiction | reflexivity].
Qed.

(** X5. The items of the Hugging Face node follow the kept detections in
    order; the name of an item has the length of the label and contains no
    underscore, and its confidence is the score of the detection. *)
Theorem HuggingFace_names_without_underscore
    {D : Type} (results : list result.t) (dd : D) :
  Forall2
    (λ r item,
       includes (foodData.name item) "_" = false
       ∧ String.length (foodData.name item) = String.length (result.label r)
       ∧ foodData.confidence item = result.score r)
    (retained results) (json.identifiedFoods (HuggingFace.aggregate results dd)).
Proof.
  rewrite aggregate_closed_form. cbn [json.identifiedFoods].
  induction (retained results) as [|r l IH]; constructor; [|exact IH].
  cbn [foodData_of foodData.name foodData.confidence].
  split; [apply replace_underscores_clean|].
  split; [apply replace_underscores_length | reflexivity].
Qed.

(** ** Input validation and the whole node *)

Lemma prefix_app_l (a b s : string) :
  String.prefix (a +:+ b) s = true → String.prefix a s = true.
Proof.
  revert s. induction a as [|c a IH]; intros s H; [by destruct s|].
  destruct s as [|c' s]; [discriminate H|].
  simpl in *.
  destruct (ascii_dec c c'); [apply IH; exact H | discriminate H].
Qed.

Lemma data_image_slash (s : string) :
  String.prefix "data:image/" s = true → String.prefix "data:image" s = true.
Proof. apply (prefix_app_l "data:image" "/"). Qed.

Lemma this_div (x y : Qc) : y ≠ 0 → (this (x / y) == this x / this y)%Q.
Proof.
  intros Hy. unfold Qcdiv. etransitivity; [apply this_mult|].
  apply Qmult_comp; [reflexivity|]. apply Qred_correct.
Qed.

Lemma too_large_iff (n : nat) :
  num 10 * num 1024 * num 1024 < Qc_of_Z (Z.of_nat n) * num 3 / num 4
  ↔ (13981013 < Z.of_nat n)%Z.
Proof.
  assert (H4 : num 4 ≠ 0)
    by (intros H; apply (f_equal this) in H; vm_compute in H; discriminate H).
  assert (Hl : (this (num 10 * num 1024 * num 1024) == inject_Z 10485760)%Q)
    by (vm_compute; reflexivity).
  assert (Hr : (this (Qc_of_Z (Z.of_nat n) * num 3 / num 4)
                == inject_Z (Z.of_nat n) * 3 * (1 # 4))%Q).
  { etransitivity; [apply (this_div _ _ H4)|].
    unfold Qdiv. apply Qmult_comp; [|vm_compute; reflexivity].
    etransitivity; [apply this_mult|].
    apply Qmult_comp; [reflexivity | apply this_num]. }
  unfold Qclt. rewrite Hl, Hr. clear Hl Hr H4.
  assert (Hz : (13981013 < Z.of_nat n)%Z
               ↔ (inject_Z 41943040 < inject_Z (3 * Z.of_nat n))%Q)
    by (rewrite <- Zlt_Qlt; lia).
  rewrite Hz, inject_Z_mult. clear Hz.
  change (inject_Z 3) with 3%Q.
  change (inject_Z 41943040) with (4 * inject_Z 10485760)%Q.
  generalize (inject_Z (Z.of_nat n)), (inject_Z 10485760). intros a b.
  split; intros H; lra.
Qed.

(** X6. [validateImageData] returns without throwing exactly for a
    non-empty string that starts with [data:image/] and has at most
    13,981,013 characters (three quarters of the length within 10 MiB). *)
Theorem validateImageData_accepts_iff (s : string) :
  validateImageData (Some (imageData.mk (Some s))) = Return tt
  ↔ s ≠ "" ∧ String.prefix "data:image/" s = true
    ∧ (Z.of_nat (String.length s) ≤ 13981013)%Z.
Proof.
  unfold validateImageData. cbn [imageData.imageBase64].
  destruct (String.eqb_spec s "") as [->|Hne].
  { split; [discriminate | intros [H _]; by destruct H]. }
  destruct (String.prefix "data:image/" s) eqn:Hp; cbn [negb].
  2:{ split; [discriminate | intros (_ & H & _); discriminate H]. }
  case_bool_decide as Hsize.
  - apply too_large_iff in Hsize.
    split; [discriminate | intros (_ & _ & H); lia].
  - split; [|reflexivity]. intros _. split; [exact Hne|]. split; [reflexivity|].
    destruct (Z_le_gt_dec (Z.of_nat (String.length s)) 13981013) as [H|H]; [exact H|].
    destruct Hsize. apply too_large_iff. lia.
Qed.

Lemma validateImageData_accepted_prefix (s : string) :
  validateImageData (Some (imageData.mk (Some s))) = Return tt →
  String.prefix "data:image" s = true.
Proof.
  unfold validateImageData. cbn [imageData.imageBase64].
  destruct (String.eqb s ""); [discriminate|].
  destruct (String.prefix "data:image/" s) eqn:Hp; [|discriminate].
  intros _. by apply data_image_slash.
Qed.

(** X7. An image that [validateImageData] accepts makes the Hugging Face
    node throw a [TypeError] before the service is asked, whatever the
    service would answer: the node assigns to its [const imageBase64]. *)
Theorem validated_image_makes_node_throw
    {D : Type} (fetch : string → outcome response.t) (s : string) (dd : D) :
  validateImageData (Some (imageData.mk (Some s))) = Return tt →
  HuggingFaceNode.run fetch s dd = Throw TypeError.
Proof.
  intros H. unfold HuggingFaceNode.run.
  by rewrite (validateImageData_accepted_prefix s H).
Qed.

Lemma validated_image_makes_node_throw_witness :
  validateImageData (Some (imageData.mk (Some png_data_url))) = Return tt
  ∧ HuggingFaceNode.run service_up png_data_url tt = Throw TypeError.
Proof.
  assert (H : validateImageData (Some (imageData.mk (Some png_data_url))) = Return tt)
    by (vm_compute; reflexivity).
  split; [exact H|].
  exact (validated_image_makes_node_throw service_up png_data_url tt H).
Defined.

(** X8. When the Hugging Face node returns, the service answered with
    [ok] and an array of results, the value is the aggregation of these
    results, and the image is one that [validateImageData] rejects (as not
    of an image format, or as missing). *)
Theorem node_returns_only_unvalidated
    {D : Type} (fetch : string → outcome response.t) (s : string) (dd : D)
    (out : json.t D) :
  HuggingFaceNode.run fetch s dd = Return out →
  (∃ response results,
      fetch s = Return response
      ∧ response.ok response = true
      ∧ response.json response = Return results
      ∧ out = HuggingFace.aggregate results dd)
  ∧ (validateImageData (Some (imageData.mk (Some s)))
     = Throw (Error "Invalid image format")
     ∨ validateImageData (Some (imageData.mk (Some s)))
       = Throw (Error "No image data provided")).
Proof.
  unfold HuggingFaceNode.run.
  destruct (String.prefix "data:image" s) eqn:Hp; [discriminate|].
  intros H. split.
  - destruct (fetch s) as [response|]; [|discriminate H].
    destruct (response.ok response) eqn:Hok; [|discriminate H]. cbn [negb] in H.
    destruct (response.json response) as [results|] eqn:Hj; [|discriminate H].
    injection H as <-. by exists response, results.
  - unfold validateImageData. cbn [imageData.imageBase64].
    destruct (String.eqb s ""); [by right|]. left.
    destruct (String.prefix "data:image/" s) eqn:Hp'; [|reflexivity].
    apply data_image_slash in Hp'. congruence.
Qed.

Lemma node_returns_only_unvalidated_witness :
  HuggingFaceNode.run service_up raw_base64 tt
  = Return (HuggingFace.aggregate [sushi; ramen] tt)
  ∧ validateImageData (Some (imageData.mk (Some raw_base64)))
    = Throw (Error "Invalid image format").
Proof.
  assert (H : HuggingFaceNode.run service_up raw_base64 tt
              = Return (HuggingFace.aggregate [sushi; ramen] tt)) by reflexivity.
  split; [exact H|].
  destruct (node_returns_only_unvalidated service_up raw_base64 tt _ H)
    as (_ & [Hv | Hv]); [exact Hv|].
  vm_compute in Hv. discriminate Hv.
Defined.

(** ** The SageMaker node *)

Section SageMakerLoop.
Variable db : gmap string nutrition.t.

Lemma SageMaker_loop_body (v : SageMakerNode.vars.t) (p : prediction.t) :
  SageMakerNode.loop_body db v p
  = match SageMaker_item db p with
    | Some d => SageMaker_push v d
    | None => v
    end.
Proof.
  unfold SageMakerNode.loop_body, SageMaker_item.
  destruct (or_number (prediction.confidence p) (prediction.score p)) as [c|];
    [|reflexivity].
  destruct (bool_decide (num 0.1 < c)); reflexivity.
Qed.

Lemma SageMaker_fold (predictions : list prediction.t) (v : SageMakerNode.vars.t) :
  fold_left (SageMakerNode.loop_body db) predictions v =
  let items := omap (SageMaker_item db) predictions in
  {| SageMakerNode.vars.identifiedFoods :=
       SageMakerNode.vars.identifiedFoods v ++ items;
     SageMakerNode.vars.totalCalories :=
       SageMakerNode.vars.totalCalories v
       + total (map SageMakerNode.foodData.calories items);
     SageMakerNode.vars.totalProtein :=
       SageMakerNode.vars.totalProtein v
       + total (map SageMakerNode.foodData.protein items);
     SageMakerNode.vars.totalCarbs :=
       SageMakerNode.vars.totalCarbs v
       + total (map SageMakerNode.foodData.carbs items);
     SageMakerNode.vars.totalFat :=
       SageMakerNode.vars.totalFat v
       + total (map SageMakerNode.foodData.fat items);
     SageMakerNode.vars.totalFiber :=
       SageMakerNode.vars.totalFiber v
       + total (map SageMakerNode.foodData.fiber items) |}.
Proof.
  revert v. induction predictions as [|p predictions IH]; intros v.
  - destruct v. cbv zeta.
    cbn [fold_left omap list_omap map total foldr
         SageMakerNode.vars.identifiedFoods SageMakerNode.vars.totalCalories
         SageMakerNode.vars.totalProtein SageMakerNode.vars.totalCarbs
         SageMakerNode.vars.totalFat SageMakerNode.vars.totalFiber].
    rewrite app_nil_r, !number_add_0_r. reflexivity.
  - cbn [fold_left]. rewrite IH, SageMaker_loop_body. cbv zeta.
    cbn [omap list_omap].
    destruct (SageMaker_item db p) as [d|]; [|reflexivity].
    cbn [SageMaker_push SageMakerNode.vars.identifiedFoods
         SageMakerNode.vars.totalCalories SageMakerNode.vars.totalProtein
         SageMakerNode.vars.totalCarbs SageMakerNode.vars.totalFat
         SageMakerNode.vars.totalFiber map total foldr].
    rewrite <- app_assoc, <- !number_add_assoc. reflexivity.
Qed.

Lemma SageMaker_aggregate_closed_form
    {D : Type} (predictions : option (list prediction.t)) (dd : D) :
  SageMakerNode.aggregate db predictions dd =
  let items := omap (SageMaker_item db) (default [] predictions) in
  {| SageMakerNode.json.identifiedFoods := items;
     SageMakerNode.json.totalCalories :=
       total (map SageMakerNode.foodData.calories items);
     SageMakerNode.json.totalProtein :=
       Math_round (total (map SageMakerNode.foodData.protein items) * num 10) / num 10;
     SageMakerNode.json.totalCarbs :=
       Math_round (total (map SageMakerNode.foodData.carbs items) * num 10) / num 10;
     SageMakerNode.json.totalFat :=
       Math_round (total (map SageMakerNode.foodData.fat items) * num 10) / num 10;
     SageMakerNode.json.totalFiber :=
       Math_round (total (map SageMakerNode.foodData.fiber items) * num 10) / num 10;
     SageMakerNode.json.dietaryData := dd;
     SageMakerNode.json.imageProcessed := true |}.
Proof.
  unfold SageMakerNode.aggregate.
  destruct predictions as [predictions|].
  - rewrite SageMaker_fold. cbv zeta.
    cbn [SageMakerNode.initial SageMakerNode.vars.identifiedFoods
         SageMakerNode.vars.totalCalories SageMakerNode.vars.totalProtein
         SageMakerNode.vars.totalCarbs SageMakerNode.vars.totalFat
         SageMakerNode.vars.totalFiber default app].
    rewrite !number_add_0_l. reflexivity.
  - cbv zeta.
    cbn [SageMakerNode.initial SageMakerNode.vars.identifiedFoods
         SageMakerNode.vars.totalCalories SageMakerNode.vars.totalProtein
         SageMakerNode.vars.totalCarbs SageMakerNode.vars.totalFat
         SageMakerNode.vars.totalFiber default omap list_omap map total foldr].
    rewrite Math_round_zero_tenths. reflexivity.
Qed.

End SageMakerLoop.

Lemma omap_length_le {A B : Type} (f : A → option B) (l : list A) :
  (length (omap f l) ≤ length l)%nat.
Proof.
  induction l as [|x l IH]; [reflexivity|].
  change (omap f (x :: l))
    with (match f x with Some y => y :: omap f l | None => omap f l end).
  destruct (f x); cbn [length]; lia.
Qed.

(** The items of a filtering loop: one for each element that passes the
    test, in order. *)
Lemma omap_filter_Forall2 {A B : Type} (f : A → option B) (kept : A → bool)
    (P : A → B → Prop) (l : list A) :
  (∀ x, match f x with
        | Some y => kept x = true ∧ P x y
        | None => kept x = false
        end) →
  Forall2 P (List.filter kept l) (omap f l).
Proof.
  intros Hf. induction l as [|x l IH]; [constructor|].
  change (omap f (x :: l))
    with (match f x with Some y => y :: omap f l | None => omap f l end).
  cbn [List.filter]. specialize (Hf x).
  destruct (f x) as [y|].
  - destruct Hf as [-> HP]. by constructor.
  - by rewrite Hf.
Qed.

Lemma num_150_nonzero : num 150 ≠ 0.
Proof. intros H. apply (f_equal this) in H. vm_compute in H. discriminate H. Qed.

Lemma portion_nonzero (portion_size : option Qc) :
  default (num 150) (or_number portion_size (Some (num 150))) ≠ 0.
Proof.
  destruct portion_size as [q|]; cbn [or_number default]; [|exact num_150_nonzero].
  case_bool_decide as Hq; cbn [default]; [exact num_150_nonzero | exact Hq].
Qed.

(** X9. The items of the SageMaker node are the predictions whose
    confidence ([confidence], or [score] when that is absent or zero) is
    above 0.1, one item each and in order: the item carries that confidence,
    the name ([food_name], or [label]), a weight that is the [portion_size]
    or else 150 and never zero, and the figures that [getNutritionalData]
    returns for that name and that weight; the calorie total is the sum of
    the items' calories, and there are no more items than predictions. *)
Theorem SageMaker_items_invariant
    {D : Type} (db : gmap string nutrition.t)
    (predictions : option (list prediction.t)) (dd : D) :
  let out := SageMakerNode.aggregate db predictions dd in
  Forall2
    (λ p item,
       SageMakerNode.foodData.name item
       = or_string (prediction.food_name p) (prediction.label p)
       ∧ or_number (prediction.confidence p) (prediction.score p)
         = Some (SageMakerNode.foodData.confidence item)
       ∧ num 0.1 < SageMakerNode.foodData.confidence item
       ∧ SageMakerNode.foodData.estimatedWeight item
         = default (num 150) (or_number (prediction.portion_size p) (Some (num 150)))
       ∧ SageMakerNode.foodData.estimatedWeight item ≠ 0
       ∧ SageMaker_figures item
         = SageMaker.getNutritionalData db
             (property_key (SageMakerNode.foodData.name item))
             (SageMakerNode.foodData.estimatedWeight item))
    (List.filter SageMaker_kept (default [] predictions))
    (SageMakerNode.json.identifiedFoods out)
  ∧ SageMakerNode.json.totalCalories out
    = total (map SageMakerNode.foodData.calories
                 (SageMakerNode.json.identifiedFoods out))
  ∧ (length (SageMakerNode.json.identifiedFoods out)
     ≤ length (default [] predictions))%nat.
Proof.
  rewrite SageMaker_aggregate_closed_form. cbv zeta.
  cbn [SageMakerNode.json.identifiedFoods SageMakerNode.json.totalCalories].
  split; [|split; [reflexivity | apply omap_length_le]].
  apply omap_filter_Forall2. intros p.
  unfold SageMaker_item, SageMaker_kept.
  destruct (or_number (prediction.confidence p) (prediction.score p)) as [c|];
    [|reflexivity].
  case_bool_decide as Hc; [|reflexivity].
  split; [reflexivity|].
  cbn [SageMakerNode.foodData.name SageMakerNode.foodData.confidence
       SageMakerNode.foodData.estimatedWeight].
  split; [reflexivity|]. split; [reflexivity|]. split; [exact Hc|].
  split; [reflexivity|]. split; [apply portion_nonzero | reflexivity].
Qed.

Lemma SageMaker_item_as_prediction (r : result.t) :
  SageMaker_item foodDatabase (as_prediction r)
  = if holds HuggingFace.confidence_test (result.score r) then
      Some (SageMaker_of_HuggingFace (foodData_of r) (result.label r))
    else None.
Proof.
  unfold SageMaker_item, as_prediction.
  cbn [prediction.food_name prediction.label prediction.confidence
       prediction.score prediction.portion_size or_string or_number default
       property_key].
  rewrite holds_confidence_test.
  destruct (bool_decide (num 0.1 < result.score r)); reflexivity.
Qed.

Lemma omap_as_prediction (results : list result.t) :
  omap (SageMaker_item foodDatabase) (map as_prediction results)
  = map (λ r, SageMaker_of_HuggingFace (foodData_of r) (result.label r))
        (retained results).
Proof.
  induction results as [|r results IH]; [reflexivity|].
  cbn [map].
  change (omap (SageMaker_item foodDatabase) (as_prediction r :: map as_prediction results))
    with (match SageMaker_item foodDatabase (as_prediction r) with
          | Some y => y :: omap (SageMaker_item foodDatabase) (map as_prediction results)
          | None => omap (SageMaker_item foodDatabase) (map as_prediction results)
          end).
  rewrite IH, SageMaker_item_as_prediction. unfold retained. cbn [List.filter].
  destruct (holds HuggingFace.confidence_test (result.score r)); reflexivity.
Qed.

(** X11. On predictions that carry only a label and a score, and with the
    table of the Hugging Face node, the SageMaker node returns the five
    totals of the Hugging Face node and, item for item, the same confidence,
    weight and figures; the name is the label as it came, which with
    underscores turned into spaces is the name the Hugging Face node
    gives. *)
Theorem SageMaker_agrees_with_HuggingFace
    {D : Type} (results : list result.t) (dd : D) :
  let sm := SageMakerNode.aggregate foodDatabase (Some (map as_prediction results)) dd in
  let hf := HuggingFace.aggregate results dd in
  Forall2
    (λ s h,
       SageMakerNode.foodData.confidence s = foodData.confidence h
       ∧ SageMakerNode.foodData.estimatedWeight s = foodData.estimatedWeight h
       ∧ SageMaker_figures s = figures h
       ∧ option_map replace_underscores (SageMakerNode.foodData.name s)
         = Some (foodData.name h))
    (SageMakerNode.json.identifiedFoods sm) (json.identifiedFoods hf)
  ∧ map SageMakerNode.foodData.name (SageMakerNode.json.identifiedFoods sm)
    = map (λ r, Some (result.label r)) (retained results)
  ∧ SageMakerNode.json.totalCalories sm = json.totalCalories hf
  ∧ SageMakerNode.json.totalProtein sm = json.totalProtein hf
  ∧ SageMakerNode.json.totalCarbs sm = json.totalCarbs hf
  ∧ SageMakerNode.json.totalFat sm = json.totalFat hf
  ∧ SageMakerNode.json.totalFiber sm = json.totalFiber hf.
Proof.
  rewrite SageMaker_aggregate_closed_form, aggregate_closed_form. cbv zeta.
  cbn [default SageMakerNode.json.identifiedFoods SageMakerNode.json.totalCalories
       SageMakerNode.json.totalProtein SageMakerNode.json.totalCarbs
       SageMakerNode.json.totalFat SageMakerNode.json.totalFiber
       json.identifiedFoods json.totalCalories json.totalProtein json.totalCarbs
       json.totalFat json.totalFiber].
  change (id (map as_prediction results)) with (map as_prediction results).
  rewrite omap_as_prediction, !map_map.
  split; [|repeat split].
  apply Forall2_fmap, Forall_Forall2_diag, Forall_forall. intros r _.
  repeat split.
Qed.

Lemma or_string_idem (a b : option string) :
  or_string (or_string a None) b = or_string a b.
Proof.
  destruct a as [s|]; [|reflexivity]. cbn [or_string].
  destruct (String.eqb s "") eqn:Hs; [reflexivity|]. cbn [or_string]. by rewrite Hs.
Qed.

Lemma or_number_idem (a b : option Qc) :
  or_number (or_number a None) b = or_number a b.
Proof.
  destruct a as [q|]; [|reflexivity]. cbn [or_number].
  destruct (bool_decide (q = 0)) eqn:Hq; [reflexivity|]. cbn [or_number]. by rewrite Hq.
Qed.

Lemma SageMaker_item_without_falsy (db : gmap string nutrition.t) (p : prediction.t) :
  SageMaker_item db (without_falsy p) = SageMaker_item db p.
Proof.
  unfold SageMaker_item, without_falsy.
  cbn [prediction.food_name prediction.label prediction.confidence prediction.score
       prediction.portion_size].
  by rewrite or_string_idem, !or_number_idem.
Qed.

(** X10. The SageMaker node reads an empty [food_name], a zero
    [confidence] and a zero [portion_size] as absent ones: removing them
    from every prediction leaves the returned object unchanged. *)
Theorem SageMaker_falsy_as_absent
    {D : Type} (db : gmap string nutrition.t) (predictions : list prediction.t) (dd : D) :
  SageMakerNode.aggregate db (Some (map without_falsy predictions)) dd
  = SageMakerNode.aggregate db (Some predictions) dd
  ∧ ∀ label score,
      without_falsy (prediction.mk (Some "") label (Some 0) score (Some 0))
      = prediction.mk None label None score None.
Proof.
  split; [|reflexivity].
  rewrite !SageMaker_aggregate_closed_form. cbv zeta.
  change (default [] (Some (map without_falsy predictions)))
    with (map without_falsy predictions).
  change (default [] (Some predictions)) with predictions.
  assert (H : omap (SageMaker_item db) (map without_falsy predictions)
              = omap (SageMaker_item db) predictions).
  { apply list_omap_ext. induction predictions as [|p l IH]; constructor; [|exact IH].
    apply SageMaker_item_without_falsy. }
  by rewrite H.
Qed.

Ltac in_list := repeat first [apply list_elem_of_here | apply list_elem_of_further].

(** ** Google Vision: portions *)

Lemma portionSizes_between :
  Forall (λ entry : string * Qc, num 80 ≤ entry.2 ∧ entry.2 ≤ num 250)
         GoogleVisionNode.portionSizes.
Proof. apply (bool_decide_unpack _). vm_compute. exact I. Qed.

Lemma estimatePortionSize_bounds (foodName : string) :
  num 80 ≤ GoogleVisionNode.estimatePortionSize foodName
  ∧ GoogleVisionNode.estimatePortionSize foodName ≤ num 250.
Proof.
  unfold GoogleVisionNode.estimatePortionSize.
  destruct (List.find _ GoogleVisionNode.portionSizes) as [entry|] eqn:Hfind.
  - apply List.find_some in Hfind as [Hin _]. apply list_elem_of_In in Hin.
    exact (proj1 (Forall_forall _ _) portionSizes_between entry Hin).
  - split; apply Qcle_decided; vm_compute; reflexivity.
Qed.

(** X12. [estimatePortionSize] returns 80, 100, 120, 150, 200 or 250: a
    portion between 80 g and 250 g for every name. *)
Theorem estimatePortionSize_range (foodName : string) :
  GoogleVisionNode.estimatePortionSize foodName
  ∈ [num 80; num 100; num 120; num 150; num 200; num 250]
  ∧ num 80 ≤ GoogleVisionNode.estimatePortionSize foodName
  ∧ GoogleVisionNode.estimatePortionSize foodName ≤ num 250.
Proof.
  split; [|apply estimatePortionSize_bounds].
  unfold GoogleVisionNode.estimatePortionSize.
  destruct (List.find _ GoogleVisionNode.portionSizes) as [entry|] eqn:Hfind;
    [|in_list].
  apply List.find_some in Hfind as [Hin _]. apply list_elem_of_In in Hin.
  assert (Hall : Forall
                   (λ entry : string * Qc,
                      entry.2 ∈ [num 80; num 100; num 120; num 150; num 200; num 250])
                   GoogleVisionNode.portionSizes).
  { unfold GoogleVisionNode.portionSizes.
    repeat (apply Forall_cons; split; [cbn [snd]; in_list|]).
    apply Forall_nil_2. }
  exact (proj1 (Forall_forall _ _) Hall entry Hin).
Qed.

(** ** Keys of the table *)

Lemma foodDatabase_keys_plain :
  Forall (λ entry, plain_key entry.1 = true) foodDatabase_literal.
Proof. apply (bool_decide_unpack _). vm_compute. exact I. Qed.

Lemma not_plain_no_entry (foodName : string) :
  plain_key foodName = false → foodDatabase !! foodName = None.
Proof.
  intros Hplain. destruct (foodDatabase !! foodName) as [n|] eqn:Hn; [|reflexivity].
  apply foodDatabase_lookup in Hn.
  pose proof (proj1 (Forall_forall _ _) foodDatabase_keys_plain _ Hn) as H.
  cbn [fst] in H. congruence.
Qed.

(** A lookup that finds no own property reads the same in every table
    without that property. *)
Lemma lookup_no_entry (table table' : gmap string nutrition.t) (name : string) :
  table !! name = None → table' !! name = None →
  lookup table name = lookup table' name.
Proof. intros H H'. unfold lookup. by rewrite H, H'. Qed.

(** For a name that is no inherited property the helpers scale the entry
    of the table, or the default profile. *)
Lemma getNutritionalData_not_inherited
    (db : gmap string nutrition.t) (foodName : string) (portionSize : Qc) :
  foodName ∉ Object_prototype →
  GoogleVision.getNutritionalData db foodName portionSize
  = scaled (default default_nutrition (db !! foodName)) portionSize.
Proof.
  intros Hout. unfold GoogleVision.getNutritionalData.
  change (food 200 10 20 8 2) with default_nutrition.
  by rewrite (lookup_not_inherited db foodName Hout).
Qed.

(** X14. A name with a character other than a to z and the underscore (a
    capital letter, a space, as in the descriptions of Google Vision) matches
    no key of the table: with the table of the Hugging Face node both
    [getNutritionalData] helpers return what they return with an empty
    table.  For the six portions of the Google Vision node and a name that
    is no inherited property, these are the figures of the default profile
    for that portion. *)
Theorem description_not_a_key_ignores_table
    (description : string) (portionSize : Qc) :
  plain_key description = false →
  GoogleVision.getNutritionalData foodDatabase description portionSize
  = GoogleVision.getNutritionalData ∅ description portionSize
  ∧ SageMaker.getNutritionalData foodDatabase description portionSize
    = SageMaker.getNutritionalData ∅ description portionSize
  ∧ (description ∉ Object_prototype →
     portionSize ∈ portions →
     GoogleVision.getNutritionalData foodDatabase description portionSize
     = scaled (food 200 10 20 8 2) portionSize).
Proof.
  intros H.
  pose proof (not_plain_no_entry _ H) as Hnone.
  assert (Hsame : lookup foodDatabase description = lookup ∅ description)
    by (apply lookup_no_entry; [exact Hnone | apply lookup_empty]).
  unfold GoogleVision.getNutritionalData, SageMaker.getNutritionalData.
  rewrite Hsame. split; [reflexivity|]. split; [reflexivity|].
  intros Hout _.
  assert (Hundefined : lookup ∅ description = None)
    by (apply lookup_undefined; split; [apply lookup_empty | exact Hout]).
  rewrite Hundefined. reflexivity.
Qed.

Lemma description_not_a_key_ignores_table_witness :
  plain_key "Pizza" = false
  ∧ foodDatabase !! "pizza" = Some (food 400 18 45 18 2)
  ∧ GoogleVision.getNutritionalData foodDatabase "Pizza" (num 200)
    = GoogleVision.getNutritionalData ∅ "Pizza" (num 200)
  ∧ GoogleVision.getNutritionalData foodDatabase "Pizza" (num 200)
    = nutritionalData.mk (num 400) (num 20) (num 40) (num 16) (num 4).
Proof.
  assert (Hout : "Pizza" ∉ Object_prototype)
    by (apply (bool_decide_unpack _); vm_compute; exact I).
  assert (Hportion : num 200 ∈ portions)
    by (apply (bool_decide_unpack _); vm_compute; exact I).
  destruct (description_not_a_key_ignores_table "Pizza" (num 200) eq_refl)
    as (Hsame & _ & Hdefault).
  split; [reflexivity|]. split; [vm_compute; reflexivity|].
  split; [exact Hsame|].
  rewrite (Hdefault Hout Hportion). number_compute.
Defined.

(** ** The Google Vision node *)

Section GoogleVisionLoop.
Variable db : gmap string nutrition.t.

Lemma GoogleVision_loop_body (v : vars.t) (label : annotation.t) :
  GoogleVisionNode.loop_body db v label = push v (GoogleVision_item db label).
Proof. reflexivity. Qed.

Lemma GoogleVision_fold (labels : list annotation.t) (v : vars.t) :
  fold_left (GoogleVisionNode.loop_body db) labels v =
  let items := map (GoogleVision_item db) labels in
  {| vars.identifiedFoods := vars.identifiedFoods v ++ items;
     vars.totalCalories := vars.totalCalories v + total (map foodData.calories items);
     vars.totalProtein := vars.totalProtein v + total (map foodData.protein items);
     vars.totalCarbs := vars.totalCarbs v + total (map foodData.carbs items);
     vars.totalFat := vars.totalFat v + total (map foodData.fat items);
     vars.totalFiber := vars.totalFiber v + total (map foodData.fiber items) |}.
Proof.
  revert v. induction labels as [|l labels IH]; intros v.
  - destruct v. cbv zeta. cbn [fold_left map total foldr vars.identifiedFoods
      vars.totalCalories vars.totalProtein vars.totalCarbs vars.totalFat
      vars.totalFiber].
    rewrite app_nil_r, !number_add_0_r. reflexivity.
  - cbn [fold_left]. rewrite IH, GoogleVision_loop_body. cbv zeta.
    cbn [push vars.identifiedFoods vars.totalCalories vars.totalProtein
         vars.totalCarbs vars.totalFat vars.totalFiber map total foldr].
    rewrite <- app_assoc, <- !number_add_assoc. reflexivity.
Qed.

Lemma GoogleVision_aggregate_closed_form
    {D : Type} (labelAnnotations : option (list annotation.t)) (dd : D) :
  GoogleVisionNode.aggregate db labelAnnotations dd =
  let items :=
    map (GoogleVision_item db)
        (List.filter GoogleVision_kept (default [] labelAnnotations)) in
  {| json.identifiedFoods := items;
     json.totalCalories := total (map foodData.calories items);
     json.totalProtein :=
       Math_round (total (map foodData.protein items) * num 10) / num 10;
     json.totalCarbs :=
       Math_round (total (map foodData.carbs items) * num 10) / num 10;
     json.totalFat :=
       Math_round (total (map foodData.fat items) * num 10) / num 10;
     json.totalFiber :=
       Math_round (total (map foodData.fiber items) * num 10) / num 10;
     json.dietaryData := dd;
     json.imageProcessed := true |}.
Proof.
  unfold GoogleVisionNode.aggregate. cbv zeta. rewrite GoogleVision_fold. cbv zeta.
  cbn [GoogleVisionNode.initial vars.identifiedFoods vars.totalCalories
       vars.totalProtein vars.totalCarbs vars.totalFat vars.totalFiber app].
  rewrite !number_add_0_l. reflexivity.
Qed.

End GoogleVisionLoop.

(** No name of an inherited property contains a food keyword. *)
Lemma Object_prototype_not_food :
  Forall (λ name, GoogleVisionNode.isFoodRelated name = false) Object_prototype.
Proof. apply (bool_decide_unpack _). vm_compute. exact I. Qed.

Lemma food_related_not_inherited (description : string) :
  GoogleVisionNode.isFoodRelated description = true →
  description ∉ Object_prototype.
Proof.
  intros Hfood Hin.
  pose proof (proj1 (Forall_forall _ _) Object_prototype_not_food _ Hin) as H.
  cbn beta in H. congruence.
Qed.

(** X15. The items of the Google Vision node are the annotations that are
    food related with a score above 0.1, in order; each has a weight between
    80 g and 250 g and the figures of its profile scaled to that weight, and
    the calorie total is the sum of the items' calories. *)
Theorem GoogleVision_items_invariant
    {D : Type} (db : gmap string nutrition.t)
    (labelAnnotations : option (list annotation.t)) (dd : D) :
  let out := GoogleVisionNode.aggregate db labelAnnotations dd in
  map foodData.name (json.identifiedFoods out)
  = map annotation.description
        (List.filter GoogleVision_kept (default [] labelAnnotations))
  ∧ Forall
      (λ item,
         GoogleVisionNode.isFoodRelated (foodData.name item) = true
         ∧ num 0.1 < foodData.confidence item
         ∧ num 80 ≤ foodData.estimatedWeight item
         ∧ foodData.estimatedWeight item ≤ num 250
         ∧ figures item
           = scaled (default default_nutrition (db !! foodData.name item))
                    (foodData.estimatedWeight item))
      (json.identifiedFoods out)
  ∧ json.totalCalories out
    = total (map foodData.calories (json.identifiedFoods out)).
Proof.
  rewrite GoogleVision_aggregate_closed_form. cbv zeta.
  cbn [json.identifiedFoods json.totalCalories].
  split; [by rewrite map_map|]. split; [|reflexivity].
  apply Forall_map, Forall_forall. intros label Hin.
  apply list_elem_of_In, List.filter_In in Hin as [_ Hkept].
  apply andb_prop in Hkept as [Hfood Hscore].
  apply bool_decide_eq_true in Hscore.
  destruct (estimatePortionSize_bounds (annotation.description label)) as (Hlo & Hhi).
  cbn [GoogleVision_item foodData.name foodData.confidence foodData.estimatedWeight].
  split; [exact Hfood|]. split; [exact Hscore|]. split; [exact Hlo|].
  split; [exact Hhi|].
  rewrite <- (getNutritionalData_not_inherited db _ _
                (food_related_not_inherited _ Hfood)).
  reflexivity.
Qed.

Lemma includes_index (haystack needle : string) :
  includes haystack needle = true ↔ String.index 0 needle haystack ≠ None.
Proof.
  unfold includes. destruct (String.index 0 needle haystack); split; congruence.
Qed.

(** A string that includes a word includes every prefix of the word. *)
Lemma includes_needle_prefix (haystack a b : string) :
  includes haystack (a +:+ b) = true → includes haystack a = true.
Proof.
  rewrite !includes_index.
  induction haystack as [|c s IH].
  - destruct a; [discriminate|]. intros H. by destruct H.
  - cbn [String.index].
    destruct (String.prefix (a +:+ b) (String c s)) eqn:Hp.
    + by rewrite (prefix_app_l _ _ _ Hp).
    + intros H. destruct (String.prefix a (String c s)); [discriminate|].
      destruct (String.index 0 (a +:+ b) s); [|by destruct H].
      destruct (String.index 0 a s); [discriminate|]. by destruct IH.
Qed.

Lemma not_food_related (description : string) :
  GoogleVisionNode.isFoodRelated description = false →
  Forall (λ keyword, includes (toLowerCase description) keyword = false)
         GoogleVisionNode.foodKeywords.
Proof.
  unfold GoogleVisionNode.isFoodRelated. intros H.
  apply Forall_forall. intros keyword Hin.
  destruct (includes (toLowerCase description) keyword) eqn:Hk; [|reflexivity].
  assert (Hex : existsb (λ keyword, includes (toLowerCase description) keyword)
                        GoogleVisionNode.foodKeywords = true).
  { apply List.existsb_exists. exists keyword. by rewrite <- list_elem_of_In. }
  congruence.
Qed.

(** X13. A description that [isFoodRelated] rejects contains none of the
    keys of [portionSizes]: [estimatePortionSize] gives it the default
    100 g. *)
Theorem not_food_related_default_portion (description : string) :
  GoogleVisionNode.isFoodRelated description = false →
  GoogleVisionNode.estimatePortionSize description = num 100.
Proof.
  intros H. apply not_food_related in H.
  assert (Hk : ∀ keyword, keyword ∈ GoogleVisionNode.foodKeywords →
                          includes (toLowerCase description) keyword = false)
    by (apply Forall_forall; exact H).
  assert (Hveg : includes (toLowerCase description) "vegetables" = false).
  { destruct (includes (toLowerCase description) "vegetables") eqn:Hv; [|reflexivity].
    apply (includes_needle_prefix _ "vegetable" "s") in Hv.
    rewrite Hk in Hv; [discriminate Hv | in_list]. }
  unfold GoogleVisionNode.estimatePortionSize, GoogleVisionNode.portionSizes.
  cbn [List.find fst snd].
  rewrite Hveg, !Hk by in_list. reflexivity.
Qed.

Lemma not_food_related_default_portion_witness :
  GoogleVisionNode.isFoodRelated "Tableware" = false
  ∧ GoogleVisionNode.estimatePortionSize "Tableware" = num 100.
Proof.
  split; [reflexivity|].
  exact (not_food_related_default_portion "Tableware" eq_refl).
Defined.

(** ** The authentication routes *)

Section AuthProperties.
Variable request_body : Type.
Variable registerSchema_validate : request_body → auth.validation auth.register_value.
Variable loginSchema_validate : request_body → auth.validation auth.login_value.
Variable bcrypt_hash : string → nat → string.
Variable bcrypt_compare : string → string → bool.
Variable jwt_sign : nat → nat → string.

Local Abbreviation register :=
  (auth.register request_body registerSchema_validate bcrypt_hash jwt_sign).
Local Abbreviation login :=
  (auth.login request_body loginSchema_validate bcrypt_compare jwt_sign).

Lemma where_email_None (d : auth.db) (e : string) :
  auth.where_email d e = None ↔ e ∉ map auth.email (auth.users d).
Proof.
  unfold auth.where_email. rewrite list_elem_of_fmap. split.
  - intros H (u & -> & Hu). apply list_elem_of_In in Hu.
    pose proof (List.find_none _ _ H u Hu) as Hne. cbn beta in Hne.
    by rewrite String.eqb_refl in Hne.
  - intros H. destruct (List.find _ _) as [u|] eqn:Hfind; [|reflexivity].
    apply List.find_some in Hfind as [Hin Heq]. apply String.eqb_eq in Heq.
    destruct H. exists u. by rewrite <- list_elem_of_In in Hin.
Qed.

Lemma where_email_Some (d : auth.db) (e : string) (u : auth.user) :
  auth.where_email d e = Some u → u ∈ auth.users d ∧ auth.email u = e.
Proof.
  intros H. apply List.find_some in H as [Hin Heq].
  split; [by apply list_elem_of_In | by apply String.eqb_eq].
Qed.

Lemma where_email_app_new (d : auth.db) (u : auth.user) :
  auth.where_email d (auth.email u) = None →
  auth.where_email
    {| auth.users := auth.users d ++ [u]; auth.users_id_seq := S (auth.users_id_seq d) |}
    (auth.email u) = Some u.
Proof.
  unfold auth.where_email. cbn [auth.users]. intros H.
  induction (auth.users d) as [|x l IH]; cbn [List.find app] in *.
  - by rewrite String.eqb_refl.
  - destruct (String.eqb (auth.email x) (auth.email u)); [discriminate H | by apply IH].
Qed.

(** X16. The two routes keep the [users] table as the migration constrains
    it: after [/register] no email and no id occurs twice and no id lies
    beyond the sequence, and [/login] leaves the table as it was. *)
Theorem auth_table_stays_consistent
    (salt now : nat) (b : request_body) (d : auth.db) :
  consistent d →
  consistent (register salt now b d).2 ∧ (login now b d).2 = d.
Proof.
  intros (Hemail & Hid & Hseq). split.
  - unfold auth.register.
    destruct (registerSchema_validate b) as [value|]; [|by repeat split].
    destruct (auth.where_email d (auth.register_email value)) eqn:Hw;
      [by repeat split|].
    apply where_email_None in Hw.
    cbn [snd auth.users auth.users_id_seq]. unfold consistent.
    cbn [auth.users auth.users_id_seq]. rewrite !map_app.
    cbn [map auth.email auth.id].
    split; [|split].
    + apply NoDup_app. split; [exact Hemail|]. split; [|apply NoDup_singleton].
      intros e He Hin. apply list_elem_of_singleton in Hin as ->. by apply Hw.
    + apply NoDup_app. split; [exact Hid|]. split; [|apply NoDup_singleton].
      intros i Hi Hin. apply list_elem_of_singleton in Hin as ->.
      apply list_elem_of_fmap in Hi as (u & Hu & Hin).
      pose proof (proj1 (Forall_forall _ _) Hseq u Hin) as Hle. cbn beta in Hle. lia.
    + apply Forall_app. split.
      * eapply Forall_impl; [exact Hseq|]. cbn beta. intros u Hu. lia.
      * apply Forall_singleton. cbn [auth.id]. lia.
  - unfold auth.login.
    destruct (loginSchema_validate b) as [value|]; [|reflexivity].
    destruct (auth.where_email d (auth.login_email value)) as [u|]; [|reflexivity].
    destruct (negb _); reflexivity.
Qed.

(** X17. After a registration that answered 201, a second request to
    [/register] whose body passes the schema and carries the same email is
    answered 409 with [Email already registered] and leaves the table as it
    was, whatever password and name that body holds. *)
Theorem register_twice_conflicts
    (salt now salt' now' : nat) (b b' : request_body)
    (value value' : auth.register_value) (d : auth.db) :
  registerSchema_validate b = auth.Valid value →
  registerSchema_validate b' = auth.Valid value' →
  auth.register_email value' = auth.register_email value →
  auth.status (register salt now b d).1 = 201%nat →
  register salt' now' b' (register salt now b d).2
  = ({| auth.status := 409; auth.json := auth.error_body "Email already registered" |},
     (register salt now b d).2).
Proof.
  intros Hb Hb' Hsame H201. unfold auth.register in *. rewrite Hb in *. rewrite Hb'.
  destruct (auth.where_email d (auth.register_email value)) eqn:Hw;
    [discriminate H201|].
  cbn [snd]. rewrite Hsame.
  set (u := {| auth.id := S (auth.users_id_seq d);
               auth.email := auth.register_email value;
               auth.password_hash := bcrypt_hash (auth.register_password value) salt;
               auth.name := auth.register_name value |}).
  change (auth.register_email value) with (auth.email u) in Hw |- *.
  by rewrite (where_email_app_new d u Hw).
Qed.

(** X18. After a registration that answered 201, logging in with the same
    email and password answers 200 with the id, email and name of the new
    user, provided [bcrypt.compare] accepts the password against the hash
    [bcrypt.hash] made of it. *)
Theorem register_then_login
    (salt now now' : nat) (b b' : request_body)
    (value : auth.register_value) (value' : auth.login_value) (d : auth.db) :
  registerSchema_validate b = auth.Valid value →
  loginSchema_validate b' = auth.Valid value' →
  auth.login_email value' = auth.register_email value →
  auth.login_password value' = auth.register_password value →
  bcrypt_compare (auth.register_password value)
                 (bcrypt_hash (auth.register_password value) salt) = true →
  auth.status (register salt now b d).1 = 201%nat →
  login now' b' (register salt now b d).2
  = ({| auth.status := 200;
        auth.json := auth.session_body (jwt_sign (S (auth.users_id_seq d)) now')
                       (S (auth.users_id_seq d))
                       (auth.register_email value) (auth.register_name value) |},
     (register salt now b d).2).
Proof.
  intros Hb Hb' Hemail Hpassword Hcompare H201.
  unfold auth.register in *. rewrite Hb in *.
  destruct (auth.where_email d (auth.register_email value)) eqn:Hw;
    [discriminate H201|].
  cbn [snd]. unfold auth.login. rewrite Hb', Hemail, Hpassword.
  set (u := {| auth.id := S (auth.users_id_seq d);
               auth.email := auth.register_email value;
               auth.password_hash := bcrypt_hash (auth.register_password value) salt;
               auth.name := auth.register_name value |}).
  change (auth.register_email value) with (auth.email u) in Hw |- * at 1.
  rewrite (where_email_app_new d u Hw). cbn [auth.password_hash u].
  rewrite Hcompare. reflexivity.
Qed.

(** X19. A login with an unknown email and a login with a wrong password
    get the same answer, 401 with [Invalid credentials], and leave the table
    as it was. *)
Theorem login_failures_look_alike
    (now now' : nat) (b b' : request_body)
    (value value' : auth.login_value) (u : auth.user) (d : auth.db) :
  loginSchema_validate b = auth.Valid value →
  loginSchema_validate b' = auth.Valid value' →
  auth.where_email d (auth.login_email value) = None →
  auth.where_email d (auth.login_email value') = Some u →
  bcrypt_compare (auth.login_password value') (auth.password_hash u) = false →
  login now b d = login now' b' d
  ∧ login now b d
    = ({| auth.status := 401; auth.json := auth.error_body "Invalid credentials" |}, d).
Proof.
  intros Hb Hb' Hunknown Hknown Hwrong. unfold auth.login.
  rewrite Hb, Hb', Hunknown, Hknown, Hwrong. by split.
Qed.

End AuthProperties.

Lemma consistent_empty_db : consistent empty_db.
Proof. repeat split; constructor. Qed.

Lemma auth_table_stays_consistent_witness :
  consistent empty_db
  ∧ consistent (sample_register 7 1000 ada empty_db).2
  ∧ (sample_login 1000 ada empty_db).2 = empty_db.
Proof.
  split; [exact consistent_empty_db|].
  exact (auth_table_stays_consistent auth.register_value sample_validate_register
           sample_validate_login sample_hash sample_compare sample_sign
           7 1000 ada empty_db consistent_empty_db).
Defined.

Lemma register_twice_conflicts_witness :
  auth.status (sample_register 7 1000 ada empty_db).1 = 201%nat
  ∧ sample_register 8 2000 ada_wrong_password (sample_register 7 1000 ada empty_db).2
    = ({| auth.status := 409; auth.json := auth.error_body "Email already registered" |},
       (sample_register 7 1000 ada empty_db).2).
Proof.
  split; [reflexivity|].
  exact (register_twice_conflicts auth.register_value sample_validate_register
           sample_hash sample_sign 7 1000 8 2000 ada ada_wrong_password
           ada ada_wrong_password empty_db eq_refl eq_refl eq_refl eq_refl).
Defined.

Lemma register_then_login_witness :
  auth.status (sample_register 7 1000 ada empty_db).1 = 201%nat
  ∧ sample_login 2000 ada (sample_register 7 1000 ada empty_db).2
    = ({| auth.status := 200;
          auth.json := auth.session_body (sample_sign 1 2000) 1
                         "ada@example.org" "Ada" |},
       (sample_register 7 1000 ada empty_db).2).
Proof.
  split; [reflexivity|].
  exact (register_then_login auth.register_value sample_validate_register
           sample_validate_login sample_hash sample_compare sample_sign
           7 1000 2000 ada ada ada
           {| auth.login_email := "ada@example.org";
              auth.login_password := "correct horse" |}
           empty_db eq_refl eq_refl eq_refl eq_refl eq_refl eq_refl).
Defined.

Lemma login_failures_look_alike_witness :
  sample_login 2000 bob (sample_register 7 1000 ada empty_db).2
  = sample_login 3000 ada_wrong_password (sample_register 7 1000 ada empty_db).2
  ∧ auth.status (sample_login 2000 bob (sample_register 7 1000 ada empty_db).2).1
    = 401%nat.
Proof.
  destruct (login_failures_look_alike auth.register_value sample_validate_login
              sample_compare sample_sign 2000 3000 bob ada_wrong_password
              {| auth.login_email := "bob@example.org";
                 auth.login_password := "battery staple" |}
              {| auth.login_email := "ada@example.org";
                 auth.login_password := "battery staple" |}
              {| auth.id := 1; auth.email := "ada@example.org";
                 auth.password_hash := sample_hash "correct horse" 7;
                 auth.name := "Ada" |}
              (sample_register 7 1000 ada empty_db).2
              eq_refl eq_refl eq_refl eq_refl eq_refl) as [Hsame Hbody].
  split; [exact Hsame|].
  unfold sample_login. rewrite Hbody. reflexivity.
Defined.
